(** * Two-stage semantic retrieval: Pinecone search and Relace reranking

    A shallow embedding of the retrieval pipeline of the repository:

    - [src/clients/relace.py]        [RelaceClient.rank_code_files] (and its
      synchronous twin),
    - [src/reranker/relace.py]       [RelaceReranker._rerank_async], [_rerank],
      [rerank_async], [rerank],
    - [src/embedder/relace.py]       [RelaceEmbedder.get_embedding],
    - [src/knowledge/retrievers/pinecone_relace/async_retriever.py] [retriever],
    - [src/services/pinecone_retriever.py] [pinecone_retriever].

    Python code that talks to the outside is modelled in a small monad [M]
    that records, in order, the network calls and the warning and error log
    lines of a run, and that ends in a value or in a raised exception.  The
    answers of the remote services are read from a [World].

    Python objects that are mutated in place and shared (the [Document]s
    whose [reranking_score] the reranker assigns) live in a store, a list
    updated by index; lists of such objects are lists of indices into it.

    Values decoded from JSON are read at the types the code declares for
    them or tests them for: a response body is one of the shapes the client
    tells apart with [isinstance] and [in], a score is a number or [null],
    file names and contents are strings. *)

From Stdlib Require Import QArith Sorted Permutation.
From stdpp Require Import gmap strings list fin_maps pretty.

Local Open Scope Z_scope.

(** ** Scores

    A score is a JSON number or [null]; the field it is stored in is declared
    [reranking_score: Optional[float]].  Finite floats are ordered as the
    rationals they denote, so a score is an [option Q]. *)

Definition Score : Type := option Q.

(** The sort key of the reranker:
    [x.reranking_score if x.reranking_score is not None else float("-inf")].
    [None] stands for minus infinity. *)
Definition key_leb (a b : Score) : bool :=
  match a, b with
  | None, _ => true
  | Some _, None => false
  | Some x, Some y => Qle_bool x y
  end.

(** Equality of keys as Python's [==] on floats sees it. *)
Definition key_eqb (a b : Score) : bool :=
  match a, b with
  | None, None => true
  | Some x, Some y => Qeq_bool x y
  | _, _ => false
  end.

(** ** [list.sort(key=..., reverse=True)]

    Python's sort is stable, and with [reverse=True] it still keeps elements
    of equal key in their original order.  A stable sort is determined by
    this (see [stable_sort_unique]), so it is modelled by a stable insertion
    sort in descending order of the key. *)
Section Sort.
Context {A : Type} (key : A → Score).

Fixpoint insert_desc (x : A) (l : list A) : list A :=
  match l with
  | [] => [x]
  | y :: l' =>
      if key_leb (key y) (key x) then x :: y :: l'
      else y :: insert_desc x l'
  end.

Definition sort_desc (l : list A) : list A := foldr insert_desc [] l.

(** Descending order of the keys. *)
Definition sorted_desc (l : list A) : Prop :=
  StronglySorted (λ a b, key_leb (key b) (key a) = true) l.

(** The elements of [l] whose key equals [k], in their order in [l]. *)
Definition with_key (k : Score) (l : list A) : list A :=
  List.filter (λ x, key_eqb (key x) k) l.
End Sort.

(** [l[:n]] for an integer [n] *)
Definition py_slice_to {A} (n : Z) (l : list A) : list A :=
  if 0 <=? n then take (Z.to_nat n) l
  else take (length l - Z.to_nat (- n))%nat l.

(** ** Documents (agno's [Document] dataclass, the fields this code uses) *)

(** Values of a metadata mapping *)
Inductive MetaVal :=
| MNone
| MStr (s : string)
| MNum (q : Q).

Record Document := mkDocument {
  content : string;
  id : option string;
  name : option string;
  meta_data : gmap string MetaVal;
  reranking_score : Score
}.

Definition set_reranking_score (s : Score) (d : Document) : Document :=
  {| content := content d; id := id d; name := name d;
     meta_data := meta_data d; reranking_score := s |}.

(** Truth value of an [Optional[str]]: [None] and [""] are false. *)
Definition str_truthy (s : option string) : bool :=
  match s with
  | Some s => negb (String.eqb s "")
  | None => false
  end.

(** [a or b] for an optional string [a] and a string [b] *)
Definition str_or (a : option string) (b : string) : string :=
  match a with
  | Some s => if String.eqb s "" then b else s
  | None => b
  end.

(** [doc.name or f"doc_{i}.txt"] *)
Definition filename_of (i : nat) (doc : Document) : string :=
  str_or (name doc) ("doc_" +:+ pretty i +:+ ".txt").

(** ** Effects *)

(** One entry of the reranker's request: [{"filename": ..., "code": ...}] *)
Record CodeFile := mkCodeFile { cf_filename : string; cf_code : string }.

(** The calls to the outside that the code makes: a request it sends to a
    service, or a call of a client library that talks to one
    ([vector_db.search], [pc.list_indexes], [index.query]), recorded as one
    call whatever the library sends inside it. *)
Inductive NetCall :=
| RerankPost (query : string) (codebase : list CodeFile) (token_limit : Z)
| VectorSearch (query : string) (limit : Z) (namespace : option string)
| ListIndexes
| EmbedPost (input : list string)
| IndexQuery (vector : list Q) (top_k : Z) (namespace : option string).

Inductive LogMsg :=
| EmptyCodebase
| SkippingInvalidItem
| ResultsNotAList
| UnexpectedRerankerResponse
| CodeRankingFailed
| FailedToRankCodeFiles
| TopNNotPositive (top_n : Z)
| ErrorRerankingDocuments
| NoEmbeddingsFound
| EmbeddingGenerationFailed
| ErrorGettingEmbedding
| MissingPineconeKey
| MissingRelaceKey
| ErrorDuringReranking
| ErrorDuringRetrieval.

Inductive Event :=
| Net (c : NetCall)
| Warning (m : LogMsg)
| Error (m : LogMsg).

Definition is_net (e : Event) : bool :=
  match e with Net _ => true | _ => false end.

Definition is_warning (e : Event) : bool :=
  match e with Warning _ => true | _ => false end.

Definition is_vector_query (e : Event) : bool :=
  match e with Net (IndexQuery _ _ _) | Net (VectorSearch _ _ _) => true | _ => false end.

(** What Python raises.  Every handler in this code is [except Exception],
    so only the fact of an exception matters to the callers. *)
Inductive Exn :=
| RelaceApiError (status : Z)
| ProviderError
| ValueError (m : string)
| HTTPStatusError (status : Z)
| LookupOrTypeError.

Inductive Res (A : Type) :=
| Ok (a : A)
| Raise (e : Exn).
Arguments Ok {A} a.
Arguments Raise {A} e.

(** A run: the events it produced, oldest first, and how it ended. *)
Definition M (A : Type) : Type := list Event * Res A.

#[export] Instance M_ret : MRet M := λ A a, ([], Ok a).
#[export] Instance M_bind : MBind M := λ A B f m,
  match m.2 with
  | Ok a => (m.1 ++ (f a).1, (f a).2)
  | Raise e => (m.1, Raise e)
  end.

Definition emit (e : Event) : M () := ([e], Ok ()).
Definition raise {A} (e : Exn) : M A := ([], Raise e).

(** [try: m except Exception as e: h e] *)
Definition try_except {A} (m : M A) (h : Exn → M A) : M A :=
  match m.2 with
  | Ok a => m
  | Raise e => (m.1 ++ (h e).1, (h e).2)
  end.

(** ** The rerank service *)

(** An item of the response, as the code inspects it: a JSON object with its
    ["filename"] and ["score"] entries when it has them ([Some None] is a
    [null] score), or any other JSON value. *)
Inductive RankItem :=
| ItemDict (filename : option string) (score : option Score)
| ItemOther.

(** [isinstance(item, dict) and "filename" in item and "score" in item] *)
Definition item_valid (it : RankItem) : bool :=
  match it with
  | ItemDict (Some _) (Some _) => true
  | _ => false
  end.

(** The value under ["results"] in an envelope *)
Inductive ResultsField :=
| ResultsList (items : list RankItem)
| ResultsOther.

(** The decoded body of a rerank response, by the tests the client makes *)
Inductive RankBody :=
| BodyDict (results : option ResultsField)
| BodyList (items : list RankItem)
| BodyOther.

(** An HTTP exchange: the call raised (connection error, timeout, body that
    is not JSON), or a status and a decoded body came back. *)
Inductive HttpReply (B : Type) :=
| HttpRaise
| HttpResponse (status : Z) (body : B).
Arguments HttpRaise {B}.
Arguments HttpResponse {B} status body.

(** ** Vector search results *)

(** The metadata of a raw match, by the keys the code reads; an absent key is
    [None]. *)
Record RawMeta := mkRawMeta {
  m_content : option string;
  m_file_path : option string;
  m_language : option string;
  m_function_name : option string;
  m_class_name : option string;
  m_repo_id : option string
}.

(** A raw match: a mapping (or an object) with optional [id], [score] and
    [metadata]. *)
Record RawMatch := mkRawMatch {
  raw_id : option string;
  raw_score : option Q;
  raw_metadata : option RawMeta
}.

(** One element of what [PineconeDb.search] returns *)
Inductive SearchResult :=
| ResDocument (d : Document)
| ResDict (r : RawMatch)
| ResOther (repr : string).

(** What [PineconeDb.search] returns: a list, or anything else ([None], ...) *)
Inductive SearchResponse :=
| RespList (l : list SearchResult)
| RespOther.

(** The body of an embedding response ([Dict[str, Any]]): its ["results"] and
    ["data"] entries when present, each a list of items with an optional
    ["embedding"]. *)
Record EmbedBody := mkEmbedBody {
  eb_results : option (list (option (list Q)));
  eb_data : option (list (option (list Q)))
}.

(** ** The world outside *)
Record World := mkWorld {
  getenv : string → option string;
  rerank_service : string → list CodeFile → Z → HttpReply RankBody;
  vector_db_search : string → Z → option string → Res SearchResponse;
  list_indexes : Res (list string);
  embed_service : list string → HttpReply EmbedBody;
  index_query : list Q → Z → option string → Res (option (list RawMatch))
}.

(** ** [src/clients/relace.py] *)

(** The validation loop of [rank_code_files]: keep the items that have both
    fields, warn about the others. *)
Fixpoint validate_items (items : list RankItem) : M (list RankItem) :=
  match items with
  | [] => mret []
  | item :: rest =>
      if item_valid item then
        validated ← validate_items rest;
        mret (item :: validated)
      else
        emit (Warning SkippingInvalidItem) ≫= λ _,
        validate_items rest
  end.

(** [RelaceClient.rank_code_files]; [rank_code_files_sync] has the same body
    with [requests] in place of the [aiohttp] session.  [rerank_service] is
    the exchange as the HTTP library delivers it: [HttpRaise] stands for a
    transport error and for a body the library refuses to decode, which the
    two libraries do not always decide alike (aiohttp's [json()] checks the
    content type, that of [requests] does not).  The two functions are
    therefore the same function of the exchange their own library delivers;
    nothing here says that the two libraries deliver the same exchange.
    Creating the session sends nothing. *)
Definition rank_code_files (w : World) (query : string)
    (codebase : list CodeFile) (token_limit : Z) : M (list RankItem) :=
  try_except
    (match codebase with
     | [] =>
         emit (Warning EmptyCodebase) ≫= λ _, mret []
     | _ =>
         emit (Net (RerankPost query codebase token_limit)) ≫= λ _,
         match rerank_service w query codebase token_limit with
         | HttpRaise => raise ProviderError
         | HttpResponse status result =>
             if status =? 200 then
               match result with
               | BodyDict (Some (ResultsList results_list)) =>
                   validate_items results_list
               | BodyDict (Some ResultsOther) =>
                   emit (Error ResultsNotAList) ≫= λ _, mret []
               | BodyList result => validate_items result
               | BodyDict None | BodyOther =>
                   emit (Error UnexpectedRerankerResponse) ≫= λ _, mret []
               end
             else
               emit (Error CodeRankingFailed) ≫= λ _,
               raise (RelaceApiError status)
         end
     end)
    (λ e, emit (Error FailedToRankCodeFiles) ≫= λ _, raise e).

Definition rank_code_files_sync := rank_code_files.

(** ** [src/reranker/relace.py] *)

(** The request built from the documents *)
Definition codebase_of (documents : list Document) : list CodeFile :=
  imap (λ i doc, mkCodeFile (filename_of i doc) (content doc)) documents.

(** [filename_to_doc]: the dictionary from file names to documents.  A document
    is referred to by its position in [documents]. *)
Definition filename_to_doc (documents : list Document) : gmap string nat :=
  foldl (λ m p, <[filename_of p.1 p.2 := p.1]> m) ∅ (imap pair documents).

(** One turn of the loop over [results_list].  The state is the store of the
    documents and [compressed_docs], a list of references into it. *)
Definition match_item (f2d : gmap string nat)
    (st : list Document * list nat) (item : RankItem) : list Document * list nat :=
  match item with
  | ItemDict (Some filename) (Some score) =>
      match f2d !! filename with
      | Some doc => (alter (set_reranking_score score) doc st.1, st.2 ++ [doc])
      | None => st
      end
  | _ => st
  end.

Definition match_results (documents : list Document) (results_list : list RankItem)
    : list Document * list nat :=
  foldl (match_item (filename_to_doc documents)) (documents, []) results_list.

(** The sort key of a reference *)
Definition doc_key (store : list Document) (doc : nat) : Score :=
  store !! doc ≫= reranking_score.

(** Reading the documents a list of references points to *)
Definition deref (store : list Document) (refs : list nat) : list Document :=
  omap (λ doc, store !! doc) refs.

(** [if top_n: compressed_docs = compressed_docs[:top_n]] *)
Definition limit_top_n {A} (top_n : option Z) (l : list A) : list A :=
  match top_n with
  | Some n => if negb (n =? 0) then py_slice_to n l else l
  | None => l
  end.

(** The matched documents in descending order of their score, as references
    and store: lines 72 to 94 of the file. *)
Definition ranked (documents : list Document) (results_list : list RankItem)
    : list Document * list nat :=
  let st := match_results documents results_list in
  (st.1, sort_desc (doc_key st.1) st.2).

(** The check of [top_n] at the head of [_rerank_async] *)
Definition checked_top_n (self_top_n : option Z) : M (option Z) :=
  match self_top_n with
  | Some n =>
      if negb (n =? 0) && negb (0 <? n)
      then emit (Warning (TopNNotPositive n)) ≫= λ _, mret None
      else mret (Some n)
  | None => mret None
  end.

(** The [try] block of [_rerank_async] with its handler.  With scores that
    are numbers or [null] only the call to the client can raise in it. *)
Definition rerank_try (w : World) (top_n : option Z) (token_limit : Z)
    (query : string) (documents : list Document) : M (list Document) :=
  try_except
    (results_list ← rank_code_files w query (codebase_of documents) token_limit;
     let st := ranked documents results_list in
     mret (deref st.1 (limit_top_n top_n st.2)))
    (λ e, emit (Error ErrorRerankingDocuments) ≫= λ _, mret documents).

(** [RelaceReranker._rerank_async] *)
Definition _rerank_async (w : World) (self_top_n : option Z) (token_limit : Z)
    (query : string) (documents : list Document) : M (list Document) :=
  match documents with
  | [] => mret []
  | _ =>
      top_n ← checked_top_n self_top_n;
      rerank_try w top_n token_limit query documents
  end.

(** [if top_n and (0 < top_n): compressed_docs = compressed_docs[:top_n]] *)
Definition limit_if_positive {A} (top_n : option Z) (l : list A) : list A :=
  match top_n with
  | Some n => if negb (n =? 0) && (0 <? n) then py_slice_to n l else l
  | None => l
  end.

(** [RelaceReranker._rerank] *)
Definition _rerank (w : World) (self_top_n : option Z) (token_limit : Z)
    (query : string) (documents : list Document) : M (list Document) :=
  try_except
    (results_list ← rank_code_files_sync w query (codebase_of documents) token_limit;
     let st := ranked documents results_list in
     mret (deref st.1 (limit_if_positive self_top_n st.2)))
    (λ e, emit (Error ErrorRerankingDocuments) ≫= λ _, mret documents).

(** [RelaceReranker.rerank_async] and [RelaceReranker.rerank] *)
Definition rerank_async (w : World) (self_top_n : option Z) (token_limit : Z)
    (query : string) (documents : list Document) : M (list Document) :=
  try_except (_rerank_async w self_top_n token_limit query documents)
    (λ e, emit (Error ErrorRerankingDocuments) ≫= λ _, mret documents).

Definition rerank (w : World) (self_top_n : option Z) (token_limit : Z)
    (query : string) (documents : list Document) : M (list Document) :=
  try_except (_rerank w self_top_n token_limit query documents)
    (λ e, emit (Error ErrorRerankingDocuments) ≫= λ _, mret documents).

(** ** [src/embedder/relace.py] *)

(** [RelaceClient.generate_embeddings_sync] *)
Definition generate_embeddings_sync (w : World) (texts : list string) : M EmbedBody :=
  try_except
    (emit (Net (EmbedPost texts)) ≫= λ _,
     match embed_service w texts with
     | HttpRaise => raise ProviderError
     | HttpResponse status result =>
         if status =? 200 then mret result
         else emit (Error EmbeddingGenerationFailed) ≫= λ _,
              raise (RelaceApiError status)
     end)
    (λ e, emit (Error EmbeddingGenerationFailed) ≫= λ _, raise e).

(** [response[key][0]["embedding"]] once [len(response[key]) > 0] is known *)
Definition first_embedding (items : list (option (list Q))) : M (list Q) :=
  match items with
  | Some embedding :: _ => mret embedding
  | _ => raise LookupOrTypeError
  end.

(** [RelaceEmbedder.get_embedding] *)
Definition get_embedding (w : World) (text : string) : M (list Q) :=
  try_except
    (response ← generate_embeddings_sync w [text];
     match eb_results response, eb_data response with
     | Some (r :: rs), _ => first_embedding (r :: rs)
     | _, Some (d :: ds) => first_embedding (d :: ds)
     | _, _ => emit (Warning NoEmbeddingsFound) ≫= λ _, mret []
     end)
    (λ e, emit (Error ErrorGettingEmbedding) ≫= λ _, mret []).

(** ** [src/knowledge/retrievers/pinecone_relace/async_retriever.py] *)

(** Reading a metadata value into a field declared [Optional[str]] or [str];
    the values stored under [file_path] and [content] are strings. *)
Definition as_name (v : MetaVal) : option string :=
  match v with MStr s => Some s | _ => None end.

Definition as_content (v : MetaVal) : string :=
  match v with MStr s => s | _ => "" end.

Definition opt_meta (s : option string) : MetaVal :=
  match s with Some s => MStr s | None => MNone end.

Definition empty_meta : RawMeta := mkRawMeta None None None None None None.

(** The body of the loop over [query_response]: one search result to one
    document ([isinstance(result, Document)], a [dict], or anything else). *)
Definition normalize (namespace : option string) (result : SearchResult) : Document :=
  match result with
  | ResDocument result =>
      let name1 :=
        match meta_data result !! "file_path" with
        | Some v => as_name v
        | None => name result
        end in
      let content1 :=
        match meta_data result !! "content" with
        | Some v => if String.eqb (content result) "" then as_content v else content result
        | None => content result
        end in
      {| content := content1; id := id result; name := name1;
         meta_data := <["namespace" := MStr (str_or namespace "default")]> (meta_data result);
         reranking_score := reranking_score result |}
  | ResDict result =>
      let metadata := default empty_meta (raw_metadata result) in
      {| content := default "" (m_content metadata);
         id := Some (default "" (raw_id result));
         name := Some (default "" (m_file_path metadata));
         meta_data :=
           <["file_path" := MStr (default "" (m_file_path metadata))]>
           (<["language" := MStr (default "" (m_language metadata))]>
           (<["function_name" := opt_meta (m_function_name metadata)]>
           (<["class_name" := opt_meta (m_class_name metadata)]>
           (<["repo_id" := MStr (default "" (m_repo_id metadata))]>
           (<["namespace" := MStr (str_or namespace "default")]>
           (<["pinecone_score" := MNum (default 0%Q (raw_score result))]> ∅))))));
         reranking_score := None |}
  | ResOther repr =>
      {| content := ""; id := Some repr; name := Some "";
         meta_data :=
           <["file_path" := MStr ""]>
           (<["language" := MStr ""]>
           (<["function_name" := MNone]>
           (<["class_name" := MNone]>
           (<["repo_id" := MStr ""]>
           (<["namespace" := MStr (str_or namespace "default")]>
           (<["pinecone_score" := MNum 0%Q]> ∅))))));
         reranking_score := None |}
  end.

(** The flat record handed to the agent *)
Record FormattedDoc := mkFormattedDoc {
  f_content : string;
  f_id : option string;
  f_name : option string;
  f_metadata : gmap string MetaVal
}.

Definition format_doc (doc : Document) : FormattedDoc :=
  {| f_content := content doc; f_id := id doc; f_name := name doc;
     f_metadata := meta_data doc |}.

(** [top_k_after_rerank or max(1, num_documents // 2)] *)
Definition reranker_top_n (top_k_after_rerank : option Z) (num_documents : Z) : Z :=
  match top_k_after_rerank with
  | Some k => if negb (k =? 0) then k else Z.max 1 (num_documents / 2)
  | None => Z.max 1 (num_documents / 2)
  end.

(** The default of [RelaceReranker.token_limit] *)
Definition default_token_limit : Z := 150000.

(** The namespace handed to the search: [if namespace: ...] *)
Definition search_namespace (namespace : option string) : option string :=
  if str_truthy namespace then namespace else None.

(** The body of [retriever] inside its outer [try]; [None] is the early
    [return None].  [kw_num_documents] is the entry [num_documents] of
    [kwargs] when there is one, an [int] as the docstring declares it, and
    [None] when the key is absent.  [vector_db.search] is a call into agno's
    [PineconeDb]: the trace records that call, not what the library does
    inside it (it asks the embedder it was given for the vector of the query,
    then queries the index).  The test
    [rerank and reranker and documents] is [rerank] here: [reranker] is an
    object and [documents] is not empty in this branch.  The [finally] clause
    closes the embedder, whose client holds no session in this path, so it
    does nothing; [logger.info] lines are not recorded. *)
Definition retriever_body (w : World) (query : string) (namespace : option string)
    (rerank : bool) (top_k_after_rerank : option Z) (kw_num_documents : option Z)
    : M (option (list FormattedDoc)) :=
  let pinecone_api_key := getenv w "PINECONE_API_KEY" in
  let relace_api_key := getenv w "RELACE_API_KEY" in
  if negb (str_truthy pinecone_api_key) then
    emit (Error MissingPineconeKey) ≫= λ _, mret None
  else if negb (str_truthy relace_api_key) then
    emit (Error MissingRelaceKey) ≫= λ _, mret None
  else
    let num_documents := default 5 kw_num_documents in
    let top_n := reranker_top_n top_k_after_rerank num_documents in
    emit (Net (VectorSearch query num_documents (search_namespace namespace))) ≫= λ _,
    match vector_db_search w query num_documents (search_namespace namespace) with
    | Raise e => raise e
    | Ok (RespList (r :: rs)) =>
        let documents := normalize namespace <$> (r :: rs) in
        documents ←
          (if rerank then
             try_except
               (rerank_async w (Some top_n) default_token_limit query documents)
               (λ e, emit (Error ErrorDuringReranking) ≫= λ _, mret documents)
           else mret documents);
        mret (Some (format_doc <$> documents))
    | Ok _ => mret (Some [])
    end.

(** [retriever]: any exception ends in [return None]. *)
Definition retriever (w : World) (query : string) (namespace : option string)
    (rerank : bool) (top_k_after_rerank : option Z) (kw_num_documents : option Z)
    : M (option (list FormattedDoc)) :=
  try_except
    (retriever_body w query namespace rerank top_k_after_rerank kw_num_documents)
    (λ e, emit (Error ErrorDuringRetrieval) ≫= λ _, mret None).

(** ** [src/services/pinecone_retriever.py] *)

Record KnowledgeDoc := mkKnowledgeDoc {
  k_text : string;
  k_score : Q;
  k_metadata : gmap string MetaVal
}.

Definition knowledge_doc (repo_namespace : option string) (match_ : RawMatch) : KnowledgeDoc :=
  let metadata := default empty_meta (raw_metadata match_) in
  {| k_text := default "" (m_content metadata);
     k_score := default 0%Q (raw_score match_);
     k_metadata :=
       <["id" := MStr (default "" (raw_id match_))]>
       (<["file_path" := MStr (default "" (m_file_path metadata))]>
       (<["language" := MStr (default "" (m_language metadata))]>
       (<["function_name" := opt_meta (m_function_name metadata)]>
       (<["class_name" := opt_meta (m_class_name metadata)]>
       (<["repo_id" := MStr (default "" (m_repo_id metadata))]>
       (<["namespace" := MStr (str_or repo_namespace "all")]> ∅)))))) |}.

(** [response.raise_for_status()] *)
Definition raise_for_status (status : Z) : M () :=
  if (200 <=? status) && (status <? 300) then mret ()
  else raise (HTTPStatusError status).

Definition pinecone_retriever_body (w : World) (query : string) (num_documents : Z)
    (repo_namespace : option string) : M (list KnowledgeDoc) :=
  let pinecone_api_key := getenv w "PINECONE_API_KEY" in
  let pinecone_index_name := default "codebase-index-v2" (getenv w "PINECONE_INDEX_NAME") in
  let relace_api_key := getenv w "RELACE_API_KEY" in
  if negb (str_truthy pinecone_api_key) then
    raise (ValueError "PINECONE_API_KEY environment variable is required")
  else if negb (str_truthy relace_api_key) then
    raise (ValueError "RELACE_API_KEY environment variable is required")
  else
    emit (Net ListIndexes) ≫= λ _,
    match list_indexes w with
    | Raise e => raise e
    | Ok names =>
        if negb (bool_decide (pinecone_index_name ∈ names)) then
          raise (ValueError "Pinecone index not found")
        else
          emit (Net (EmbedPost [query])) ≫= λ _,
          match embed_service w [query] with
          | HttpRaise => raise ProviderError
          | HttpResponse status data =>
              raise_for_status status ≫= λ _,
              query_embedding ←
                match eb_results data with
                | Some (r :: rs) => first_embedding (r :: rs)
                | _ => raise (ValueError "No embedding data in response")
                end;
              let ns := if str_truthy repo_namespace then repo_namespace else None in
              emit (Net (IndexQuery query_embedding num_documents ns)) ≫= λ _,
              match index_query w query_embedding num_documents ns with
              | Raise e => raise e
              | Ok (Some matches) => mret (knowledge_doc repo_namespace <$> matches)
              | Ok None => mret []
              end
          end
    end.

(** [pinecone_retriever] *)
Definition pinecone_retriever (w : World) (query : string) (num_documents : Z)
    (repo_namespace : option string) : M (option (list KnowledgeDoc)) :=
  try_except
    (documents ← pinecone_retriever_body w query num_documents repo_namespace;
     mret (Some documents))
    (λ e, emit (Error ErrorDuringRetrieval) ≫= λ _, mret None).

(** ** Vocabulary of the statements *)

(** [i] is the position of the last document called [f]. *)
Definition last_named (documents : list Document) (f : string) (i : nat) : Prop :=
  (∃ d, documents !! i = Some d ∧ filename_of i d = f) ∧
  ∀ j d', (i < j)%nat → documents !! j = Some d' → filename_of j d' ≠ f.

(** [i] is the position of the first document called [f]. *)
Definition first_named (documents : list Document) (f : string) (i : nat) : Prop :=
  (∃ d, documents !! i = Some d ∧ filename_of i d = f) ∧
  ∀ j d', (j < i)%nat → documents !! j = Some d' → filename_of j d' ≠ f.

(** The reference a response item resolves to *)
Definition item_ref (f2d : gmap string nat) (item : RankItem) : option nat :=
  match item with
  | ItemDict (Some filename) (Some _) => f2d !! filename
  | _ => None
  end.

(** The file name of a pair that carries both fields *)
Definition item_filename (item : RankItem) : option string :=
  match item with
  | ItemDict (Some filename) (Some _) => Some filename
  | _ => None
  end.

(** The last score the loop assigns to the document at [i] *)
Definition assigned (f2d : gmap string nat) (results : list RankItem) (i : nat)
    : option Score :=
  foldl (λ acc item,
           match item with
           | ItemDict (Some filename) (Some score) =>
               if bool_decide (f2d !! filename = Some i) then Some score else acc
           | _ => acc
           end) None results.

(** The score of the last pair of the response that names [f] *)
Definition last_score (results : list RankItem) (f : string) : option Score :=
  foldl (λ acc item,
           match item with
           | ItemDict (Some filename) (Some score) =>
               if String.eqb filename f then Some score else acc
           | _ => acc
           end) None results.

Definition with_score (s : option Score) (d : Document) : Document :=
  match s with
  | Some score => set_reranking_score score d
  | None => d
  end.

(** The matched documents in the order of the response: one entry for every
    pair whose file name is the name of a document, that entry being the last
    document of that name, with the last score the response gives the name. *)
Definition matched_doc (documents : list Document) (results : list RankItem)
    (item : RankItem) : option Document :=
  match item with
  | ItemDict (Some filename) (Some _) =>
      i ← filename_to_doc documents !! filename;
      d ← documents !! i;
      score ← last_score results filename;
      Some (set_reranking_score score d)
  | _ => None
  end.

Definition matched_docs (documents : list Document) (results : list RankItem)
    : list Document :=
  omap (matched_doc documents results) results.

(** Every reference points into the store. *)
Definition valid_refs (store : list Document) (refs : list nat) : Prop :=
  Forall (λ i, is_Some (store !! i)) refs.

(** Only a strictly positive [top_n] cuts the list. *)
Definition truncate_pos {A} (top_n : option Z) (l : list A) : list A :=
  match top_n with
  | Some n => if 0 <? n then take (Z.to_nat n) l else l
  | None => l
  end.

(** [top_n] after the check: a negative value is dropped. *)
Definition usable_top_n (self_top_n : option Z) : option Z :=
  match self_top_n with
  | Some n => if negb (n =? 0) && negb (0 <? n) then None else Some n
  | None => None
  end.

(** The list [_rerank_async] returns, as a function of the answer of the
    client *)
Definition rerank_outcome (w : World) (top_n : option Z) (token_limit : Z)
    (query : string) (documents : list Document) : list Document :=
  match documents with
  | [] => []
  | _ =>
      match (rank_code_files w query (codebase_of documents) token_limit).2 with
      | Ok results =>
          truncate_pos top_n (sort_desc reranking_score (matched_docs documents results))
      | Raise _ => documents
      end
  end.

(** The value [retriever] returns *)
Definition retriever_outcome (w : World) (query : string) (namespace : option string)
    (rerank : bool) (top_k_after_rerank : option Z) (kw_num_documents : option Z)
    : option (list FormattedDoc) :=
  if negb (str_truthy (getenv w "PINECONE_API_KEY")) then None
  else if negb (str_truthy (getenv w "RELACE_API_KEY")) then None
  else
    let num_documents := default 5 kw_num_documents in
    match vector_db_search w query num_documents (search_namespace namespace) with
    | Raise _ => None
    | Ok (RespList (r :: rs)) =>
        let documents := normalize namespace <$> (r :: rs) in
        Some (format_doc <$>
                (if rerank
                 then rerank_outcome w
                        (Some (reranker_top_n top_k_after_rerank num_documents))
                        default_token_limit query documents
                 else documents))
    | Ok _ => Some []
    end.

(** The exchange with the service failed: the call raised, or the status is
    not 200. *)
Definition reply_failed {B} (r : HttpReply B) : bool :=
  match r with
  | HttpRaise => true
  | HttpResponse status _ => negb (status =? 200)
  end.



(** ** Kinds of events *)

(** The events of [rank_code_files]; a request always carries a file. *)
Definition client_event (e : Event) : bool :=
  match e with
  | Net (RerankPost _ (_ :: _) _) => true
  | Warning EmptyCodebase | Warning SkippingInvalidItem => true
  | Error ResultsNotAList | Error UnexpectedRerankerResponse
  | Error CodeRankingFailed | Error FailedToRankCodeFiles => true
  | _ => false
  end.

(** The events of the [try] block of the reranker *)
Definition try_event (e : Event) : bool :=
  client_event e ||
  match e with Error ErrorRerankingDocuments => true | _ => false end.

Definition is_top_n_warning (e : Event) : bool :=
  match e with Warning (TopNNotPositive _) => true | _ => false end.

(** A request to the rerank service that carries no file *)
Definition is_empty_rerank_call (e : Event) : bool :=
  match e with Net (RerankPost _ [] _) => true | _ => false end.

Definition reranker_event (e : Event) : bool := try_event e || is_top_n_warning e.

Definition retriever_event (e : Event) : bool :=
  reranker_event e ||
  match e with
  | Net (VectorSearch _ _ _) => true
  | Error MissingPineconeKey | Error MissingRelaceKey
  | Error ErrorDuringReranking | Error ErrorDuringRetrieval => true
  | _ => false
  end.

(** ** The claims as the specification words them, for comparison *)

(** Two records of the same document, whatever score they carry *)
Definition same_document (d d' : Document) : Prop :=
  content d = content d' ∧ id d = id d' ∧ name d = name d' ∧ meta_data d = meta_data d'.

(** The name of the document at [i] is the file name of a pair of the response. *)
Definition name_matched (results : list RankItem) (i : nat) (d : Document) : Prop :=
  ∃ score, ItemDict (Some (filename_of i d)) (Some score) ∈ results.

(** "The returned list contains exactly those input documents whose name
    matched a pair of the response." *)
Definition exactly_the_matched (documents : list Document) (results : list RankItem)
    (out : list Document) : Prop :=
  ∀ i d, documents !! i = Some d →
    (name_matched results i d ↔ ∃ d', d' ∈ out ∧ same_document d d').

(** "If several documents share a name, only the first of them receives the
    score": after the matching loop a document whose name the response scores
    carries that score if and only if it is the first of its name. *)
Definition first_match_wins (documents : list Document) (results : list RankItem) : Prop :=
  ∀ i d score, documents !! i = Some d →
    last_score results (filename_of i d) = Some score →
    (first_named documents (filename_of i d) i ↔
     (match_results documents results).1 !! i = Some (set_reranking_score score d)).


(** ** Sample data *)

Definition ex_doc (i n : string) : Document := mkDocument "code" (Some i) (Some n) ∅ None.

Definition ex_pair (f : string) (q : Q) : RankItem := ItemDict (Some f) (Some (Some q)).

Definition ex_match (i path : string) (q : Q) : SearchResult :=
  ResDict (mkRawMatch (Some i) (Some q)
             (Some (mkRawMeta (Some "code") (Some path) None None None None))).

(** A world with both keys set, a search that returns [found] and a rerank
    service that answers [reply]. *)
Definition ex_world (found : Res SearchResponse) (reply : HttpReply RankBody) : World :=
  {| getenv := λ k, if String.eqb k "PINECONE_INDEX_NAME" then None else Some "secret";
     rerank_service := λ _ _ _, reply;
     vector_db_search := λ _ _ _, found;
     list_indexes := Ok ["codebase-index-v2"];
     embed_service := λ _, HttpResponse 200 (mkEmbedBody None None);
     index_query := λ _ _ _, Ok (Some []) |}.

Definition ex_same_name : list Document := [ex_doc "1" "a.py"; ex_doc "2" "a.py"].

Definition ex_three : list Document :=
  [ex_doc "1" "a.py"; ex_doc "2" "b.py"; ex_doc "3" "c.py"].

Definition ex_results_ba : list RankItem := [ex_pair "b.py" (1#2); ex_pair "a.py" (9#10)].
Definition ex_results_a : list RankItem := [ex_pair "a.py" (9#10)].
Definition ex_results_aa : list RankItem := [ex_pair "a.py" (9#10); ex_pair "a.py" (8#10)].

(** A world whose rerank service answers 200 with the bare list [results] *)
Definition ex_rerank_world (results : list RankItem) : World :=
  ex_world (Ok RespOther) (HttpResponse 200 (BodyList results)).

Definition ex_no_relace_key : World :=
  {| getenv := λ k, if String.eqb k "PINECONE_API_KEY" then Some "secret" else None;
     rerank_service := λ _ _ _, HttpRaise;
     vector_db_search := λ _ _ _, Ok (RespList [ex_match "1" "a.py" (9#10)]);
     list_indexes := Ok ["codebase-index-v2"];
     embed_service := λ _, HttpResponse 200 (mkEmbedBody None None);
     index_query := λ _ _ _, Ok (Some []) |}.

Definition ex_found_ab : list SearchResult :=
  [ex_match "1" "a.py" (9#10); ex_match "2" "b.py" (1#2)].

Definition ex_found_same_name : list SearchResult :=
  [ex_match "1" "a.py" (9#10); ex_match "2" "a.py" (1#2)].

Definition ex_found_abc : list SearchResult :=
  [ex_match "1" "a.py" (9#10); ex_match "2" "b.py" (1#2); ex_match "3" "c.py" (1#4)].

Definition ex_results_abc : list RankItem :=
  [ex_pair "c.py" (3#4); ex_pair "a.py" (1#2); ex_pair "b.py" (1#4)].

(** The search finds [found]; the rerank service is down. *)
Definition ex_rerank_down (found : list SearchResult) : World :=
  ex_world (Ok (RespList found)) (HttpResponse 500 BodyOther).

(** The search finds [found]; the rerank service answers with [results] in an
    envelope. *)
Definition ex_rerank_up (found : list SearchResult) (results : list RankItem) : World :=
  ex_world (Ok (RespList found)) (HttpResponse 200 (BodyDict (Some (ResultsList results)))).

(** ** [src/agents/planner_agent.py] *)

(** The function [get_planner_retriever(namespace)] returns.  It overwrites
    [kwargs['num_documents']] with 15 whatever the caller passed, and fixes
    [rerank=True] and [top_k_after_rerank=8]. *)
Definition configured_retriever (w : World) (namespace : option string)
    (query : string) (kw_num_documents : option Z) : M (option (list FormattedDoc)) :=
  retriever w query namespace true (Some 8) (Some 15).

(** ** [create_pinecone_knowledge_base] of [src/services/pinecone_retriever.py] *)


(** ** The session of [RelaceClient] *)

(** An [aiohttp.ClientSession], by what this code reads of it *)
Record ClientSession := mkClientSession {
  session_headers : list (string * string);
  session_closed : bool
}.

(** The fields of a [RelaceClient] that [_get_session] and [close] use *)
Record RelaceClient := mkRelaceClient {
  api_key : option string;
  session : option ClientSession
}.

(** [f"{x}"] for an [Optional[str]] *)
Definition py_str (x : option string) : string := default "None" x.

(** The session [_get_session] creates *)
Definition new_session (self : RelaceClient) : ClientSession :=
  {| session_headers :=
       [("Authorization", "Bearer " +:+ py_str (api_key self));
        ("Content-Type", "application/json")];
     session_closed := false |}.

(** [RelaceClient._get_session]: the client afterwards and the session
    returned *)
Definition _get_session (self : RelaceClient) : RelaceClient * ClientSession :=
  match session self with
  | Some s =>
      if session_closed s
      then (mkRelaceClient (api_key self) (Some (new_session self)), new_session self)
      else (self, s)
  | None => (mkRelaceClient (api_key self) (Some (new_session self)), new_session self)
  end.

(** [RelaceClient.close] *)
Definition close (self : RelaceClient) : RelaceClient :=
  match session self with
  | Some s =>
      if negb (session_closed s)
      then mkRelaceClient (api_key self)
             (Some (mkClientSession (session_headers s) true))
      else self
  | None => self
  end.

(** ** More vocabulary *)

(** The calls to the outside of a run, in order *)
Definition net_calls (trace : list Event) : list Event := List.filter is_net trace.

(** The pair carries both fields and names a file that was sent. *)
Definition pair_matches (documents : list Document) (item : RankItem) : bool :=
  match item_filename item with
  | Some f => bool_decide (f ∈ cf_filename <$> codebase_of documents)
  | None => false
  end.

(** A body of status 200 that is neither a list nor an envelope with a list *)
Definition unexpected_body (body : RankBody) : bool :=
  match body with
  | BodyOther | BodyDict None | BodyDict (Some ResultsOther) => true
  | _ => false
  end.

(** The index the service retriever looks for *)
Definition index_name (w : World) : string :=
  default "codebase-index-v2" (getenv w "PINECONE_INDEX_NAME").

(** ** More sample data *)

Definition ex_invalid_items : list RankItem :=
  [ex_pair "b.py" (1#2); ItemOther; ItemDict (Some "a.py") None; ex_pair "a.py" (9#10)].

(** A world whose embedding service answers [status] with [body] and whose
    index returns [matches] *)
Definition ex_embed_world (status : Z) (body : EmbedBody) (matches : option (list RawMatch))
    : World :=
  {| getenv := λ k, if String.eqb k "PINECONE_INDEX_NAME" then None else Some "secret";
     rerank_service := λ _ _ _, HttpRaise;
     vector_db_search := λ _ _ _, Ok RespOther;
     list_indexes := Ok ["other-index"; "codebase-index-v2"];
     embed_service := λ _, HttpResponse status body;
     index_query := λ _ _ _, Ok matches |}.

(** A world whose environment names an index that does not exist *)
Definition ex_no_index : World :=
  {| getenv := λ k, if String.eqb k "PINECONE_INDEX_NAME" then Some "my-index"
                    else Some "secret";
     rerank_service := λ _ _ _, HttpRaise;
     vector_db_search := λ _ _ _, Ok RespOther;
     list_indexes := Ok ["codebase-index-v2"];
     embed_service := λ _, HttpResponse 200 (mkEmbedBody (Some [Some [1#2]]) None);
     index_query := λ _ _ _, Ok (Some []) |}.


(** * Properties *)

(** ** The order on keys *)

Lemma key_leb_refl (a : Score) : key_leb a a = true.
Proof. destruct a as [x|]; simpl; [|done]. apply Qle_bool_iff, Qle_refl. Qed.

Lemma key_leb_total (a b : Score) : key_leb a b = false → key_leb b a = true.
Proof.
  destruct a as [x|], b as [y|]; simpl; try done.
  intros H. apply Qle_bool_iff.
  destruct (Qlt_le_dec y x) as [Hlt|Hle].
  - by apply Qlt_le_weak.
  - apply Qle_bool_iff in Hle. congruence.
Qed.

Lemma key_leb_trans (a b c : Score) :
  key_leb a b = true → key_leb b c = true → key_leb a c = true.
Proof.
  destruct a as [x|], b as [y|], c as [z|]; simpl; try done.
  rewrite !Qle_bool_iff. apply Qle_trans.
Qed.

Lemma key_eqb_refl (a : Score) : key_eqb a a = true.
Proof. destruct a as [x|]; simpl; [|done]. apply Qeq_bool_iff, Qeq_refl. Qed.

Lemma key_eqb_leb (a b : Score) : key_eqb a b = true → key_leb a b = true.
Proof.
  destruct a as [x|], b as [y|]; simpl; try done.
  rewrite Qeq_bool_iff, Qle_bool_iff. intros ->. apply Qle_refl.
Qed.

Lemma key_eqb_sym (a b : Score) : key_eqb a b = key_eqb b a.
Proof.
  destruct a as [x|], b as [y|]; simpl; try done.
  apply eq_true_iff_eq. rewrite !Qeq_bool_iff. split; intros ->; apply Qeq_refl.
Qed.

Lemma key_eqb_trans (a b c : Score) :
  key_eqb a b = true → key_eqb b c = true → key_eqb a c = true.
Proof.
  destruct a as [x|], b as [y|], c as [z|]; simpl; try done.
  rewrite !Qeq_bool_iff. apply Qeq_trans.
Qed.

Lemma key_leb_antisym (a b : Score) :
  key_leb a b = true → key_leb b a = true → key_eqb a b = true.
Proof.
  destruct a as [x|], b as [y|]; simpl; try done.
  rewrite !Qle_bool_iff, Qeq_bool_iff. apply Qle_antisym.
Qed.

(** ** The sort *)
Section SortFacts.
Context {A : Type} (key : A → Score).
Implicit Types (l : list A) (x : A) (k : Score).

Lemma insert_desc_perm x l : insert_desc key x l ≡ₚ x :: l.
Proof.
  induction l as [|y l IH]; simpl; [done|].
  destruct (key_leb (key y) (key x)); [done|].
  rewrite IH. apply Permutation_swap.
Qed.

Lemma sort_desc_perm l : sort_desc key l ≡ₚ l.
Proof.
  induction l as [|x l IH]; simpl; [done|].
  rewrite insert_desc_perm. by f_equiv.
Qed.

Lemma sort_desc_length l : length (sort_desc key l) = length l.
Proof. by rewrite sort_desc_perm. Qed.

Lemma insert_desc_sorted x l :
  sorted_desc key l → sorted_desc key (insert_desc key x l).
Proof.
  unfold sorted_desc. induction 1 as [|y l Hl IH Hy]; simpl.
  - repeat constructor.
  - destruct (key_leb (key y) (key x)) eqn:Hyx.
    + constructor; [by constructor|]. constructor; [done|].
      eapply Forall_impl; [exact Hy|]. simpl. intros z Hz.
      by eapply key_leb_trans.
    + constructor; [done|].
      rewrite insert_desc_perm. constructor; [|done].
      by apply key_leb_total.
Qed.

Lemma sort_desc_sorted l : sorted_desc key (sort_desc key l).
Proof.
  induction l as [|x l IH]; simpl; [constructor|].
  by apply insert_desc_sorted.
Qed.

Lemma insert_desc_with_key k x l :
  with_key key k (insert_desc key x l) = with_key key k (x :: l).
Proof.
  induction l as [|y l IH]; [done|]. simpl insert_desc.
  destruct (key_leb (key y) (key x)) eqn:Hyx; [done|].
  change (with_key key k (y :: insert_desc key x l))
    with (if key_eqb (key y) k then y :: with_key key k (insert_desc key x l)
          else with_key key k (insert_desc key x l)).
  rewrite IH. simpl.
  destruct (key_eqb (key y) k) eqn:Hy, (key_eqb (key x) k) eqn:Hx; try done.
  rewrite key_eqb_sym in Hx.
  rewrite (key_eqb_leb _ _ (key_eqb_trans _ _ _ Hy Hx)) in Hyx. done.
Qed.

(** Stability: elements of equal key keep their relative order. *)
Lemma sort_desc_stable k l :
  with_key key k (sort_desc key l) = with_key key k l.
Proof.
  induction l as [|x l IH]; [done|]. simpl sort_desc.
  rewrite insert_desc_with_key. simpl. by rewrite IH.
Qed.

Lemma with_key_nil_inv l : (∀ k, with_key key k l = []) → l = [].
Proof.
  destruct l as [|y l]; [done|]. intros H. specialize (H (key y)).
  simpl in H. by rewrite key_eqb_refl in H.
Qed.

Lemma with_key_elem k x l : x ∈ with_key key k l → x ∈ l ∧ key_eqb (key x) k = true.
Proof.
  unfold with_key. rewrite !list_elem_of_In, filter_In. done.
Qed.

Lemma sorted_desc_head_max x l z :
  sorted_desc key (x :: l) → z ∈ x :: l → key_leb (key z) (key x) = true.
Proof.
  intros Hs Hz. apply StronglySorted_inv in Hs as [_ Hx].
  apply elem_of_cons in Hz as [->|Hz]; [apply key_leb_refl|].
  rewrite Forall_forall in Hx. by apply Hx.
Qed.

Lemma sorted_heads_leb x t y u :
  sorted_desc key (y :: u) →
  with_key key (key x) (x :: t) = with_key key (key x) (y :: u) →
  key_leb (key x) (key y) = true.
Proof.
  intros Hs Heq.
  assert (x ∈ with_key key (key x) (y :: u)) as Hx.
  { rewrite <-Heq. simpl. rewrite key_eqb_refl. left. }
  apply with_key_elem in Hx as [Hx _].
  by eapply sorted_desc_head_max.
Qed.

(** Two lists in descending order that agree on every class of equal keys
    are the same list. *)
Lemma sorted_desc_with_key_eq l1 l2 :
  sorted_desc key l1 → sorted_desc key l2 →
  (∀ k, with_key key k l1 = with_key key k l2) → l1 = l2.
Proof.
  revert l2. induction l1 as [|x t IH]; intros l2 H1 H2 Heq.
  - symmetry. apply with_key_nil_inv. intros k. by rewrite <-Heq.
  - destruct l2 as [|y u].
    { apply with_key_nil_inv. done. }
    assert (key_eqb (key x) (key y) = true) as Hxy.
    { apply key_leb_antisym.
      - eapply sorted_heads_leb; [exact H2|apply Heq].
      - eapply sorted_heads_leb; [exact H1|symmetry; apply Heq]. }
    assert (x = y) as ->.
    { specialize (Heq (key y)). simpl in Heq.
      rewrite Hxy, key_eqb_refl in Heq. congruence. }
    f_equal. apply IH.
    + by apply StronglySorted_inv in H1 as [? _].
    + by apply StronglySorted_inv in H2 as [? _].
    + intros k. specialize (Heq k). simpl in Heq.
      destruct (key_eqb (key y) k); congruence.
Qed.

(** Every stable descending sort returns what [sort_desc] returns. *)
Lemma stable_sort_unique l l' :
  sorted_desc key l' →
  (∀ k, with_key key k l' = with_key key k l) →
  l' = sort_desc key l.
Proof.
  intros Hs Hst. apply sorted_desc_with_key_eq; [done|apply sort_desc_sorted|].
  intros k. by rewrite sort_desc_stable.
Qed.
End SortFacts.

(** ** Runs *)

Lemma bind_ok {A B} (m : M A) (f : A → M B) a :
  m.2 = Ok a → m ≫= f = (m.1 ++ (f a).1, (f a).2).
Proof. intros H. unfold mbind, M_bind. by rewrite H. Qed.

Lemma bind_raise {A B} (m : M A) (f : A → M B) e :
  m.2 = Raise e → m ≫= f = (m.1, Raise e).
Proof. intros H. unfold mbind, M_bind. by rewrite H. Qed.

Lemma try_except_ok {A} (m : M A) h a : m.2 = Ok a → try_except m h = m.
Proof. intros H. unfold try_except. by rewrite H. Qed.

Lemma try_except_raise {A} (m : M A) h e :
  m.2 = Raise e → try_except m h = (m.1 ++ (h e).1, (h e).2).
Proof. intros H. unfold try_except. by rewrite H. Qed.

(** ** The dictionary from file names to documents *)

Lemma filename_to_doc_snoc documents d :
  filename_to_doc (documents ++ [d])
  = <[filename_of (length documents) d := length documents]> (filename_to_doc documents).
Proof.
  unfold filename_to_doc. rewrite imap_app, foldl_app. simpl.
  by rewrite Nat.add_0_r.
Qed.

Lemma last_named_snoc_eq documents d i :
  last_named (documents ++ [d]) (filename_of (length documents) d) i ↔ i = length documents.
Proof.
  split.
  - intros [(d0 & Hi & Hf) Hlast].
    destruct (decide (i = length documents)) as [|Hne]; [done|].
    apply lookup_lt_Some in Hi as Hlt. rewrite length_app in Hlt. simpl in Hlt.
    exfalso. apply (Hlast (length documents) d); [lia| |done].
    by rewrite lookup_app_r, Nat.sub_diag.
  - intros ->. split.
    + exists d. by rewrite lookup_app_r, Nat.sub_diag.
    + intros j d' Hj Hd'. apply lookup_lt_Some in Hd'.
      rewrite length_app in Hd'. simpl in Hd'. lia.
Qed.

Lemma last_named_snoc_ne documents d f i :
  filename_of (length documents) d ≠ f →
  last_named (documents ++ [d]) f i ↔ last_named documents f i.
Proof.
  intros Hne. split.
  - intros [(d0 & Hi & Hf) Hlast].
    assert (i < length documents)%nat as Hlt.
    { apply lookup_lt_Some in Hi as Hlt. rewrite length_app in Hlt. simpl in Hlt.
      destruct (decide (i = length documents)) as [->|]; [|lia].
      rewrite lookup_app_r, Nat.sub_diag in Hi by lia. simplify_eq/=. }
    split.
    + exists d0. by rewrite lookup_app_l in Hi.
    + intros j d' Hj Hd'. apply (Hlast j d' Hj).
      rewrite lookup_app_l; [done|]. by eapply lookup_lt_Some.
  - intros [(d0 & Hi & Hf) Hlast]. split.
    + exists d0. split; [|done]. rewrite lookup_app_l; [done|].
      by eapply lookup_lt_Some.
    + intros j d' Hj Hd'.
      destruct (decide (j < length documents)%nat) as [Hlt|Hge].
      * rewrite lookup_app_l in Hd' by done. by eapply Hlast.
      * apply lookup_lt_Some in Hd' as Hlt. rewrite length_app in Hlt. simpl in Hlt.
        assert (j = length documents) as -> by lia.
        rewrite lookup_app_r, Nat.sub_diag in Hd' by lia. by simplify_eq/=.
Qed.

(** The dictionary sends a name to the last document of that name. *)
Lemma filename_to_doc_spec documents f i :
  filename_to_doc documents !! f = Some i ↔ last_named documents f i.
Proof.
  revert i. induction documents as [|d documents IH] using rev_ind; intros i.
  - unfold filename_to_doc. simpl. rewrite lookup_empty. split; [done|].
    by intros [(d0 & Hi & _) _].
  - rewrite filename_to_doc_snoc.
    destruct (decide (filename_of (length documents) d = f)) as [<-|Hne].
    + rewrite lookup_insert_eq, last_named_snoc_eq. split; [by intros [= <-]|by intros ->].
    + rewrite lookup_insert_ne by done. by rewrite last_named_snoc_ne, IH.
Qed.

Lemma filename_to_doc_is_Some documents i d :
  documents !! i = Some d → is_Some (filename_to_doc documents !! filename_of i d).
Proof.
  revert i d. induction documents as [|d0 documents IH] using rev_ind; intros i d Hi.
  - done.
  - rewrite filename_to_doc_snoc.
    destruct (decide (filename_of (length documents) d0 = filename_of i d)) as [<-|Hne].
    + rewrite lookup_insert_eq. eauto.
    + rewrite lookup_insert_ne by done.
      destruct (decide (i < length documents)%nat) as [Hlt|Hge].
      * rewrite lookup_app_l in Hi by done. by apply IH.
      * apply lookup_lt_Some in Hi as Hlt. rewrite length_app in Hlt. simpl in Hlt.
        assert (i = length documents) as -> by lia.
        rewrite lookup_app_r, Nat.sub_diag in Hi by lia. by simplify_eq/=.
Qed.

Lemma filename_to_doc_None documents f :
  filename_to_doc documents !! f = None ↔
  ∀ i d, documents !! i = Some d → filename_of i d ≠ f.
Proof.
  split.
  - intros Hnone i d Hi <-.
    apply filename_to_doc_is_Some in Hi as [j Hj]. congruence.
  - intros Hno. destruct (filename_to_doc documents !! f) as [i|] eqn:Hi; [|done].
    apply filename_to_doc_spec in Hi as [(d & Hd & Hf) _]. by destruct (Hno i d).
Qed.

Lemma last_named_inj documents f f' i :
  last_named documents f i → last_named documents f' i → f = f'.
Proof. intros [(d & Hd & <-) _] [(d' & Hd' & <-) _]. congruence. Qed.

(** ** Matching the response against the documents *)

Lemma set_with_score score s d :
  set_reranking_score score (with_score s d) = set_reranking_score score d.
Proof. by destruct s. Qed.

Section Matching.
Context (f2d : gmap string nat) (documents : list Document).
Implicit Types (results : list RankItem) (item : RankItem).

Lemma match_item_refs st item :
  (match_item f2d st item).2 = st.2 ++ option_list (item_ref f2d item).
Proof.
  destruct item as [[f|] [sc|]|]; simpl; rewrite ?app_nil_r; try done.
  destruct (f2d !! f); simpl; by rewrite ?app_nil_r.
Qed.

Lemma foldl_match_item_refs results :
  (foldl (match_item f2d) (documents, []) results).2 = omap (item_ref f2d) results.
Proof.
  induction results as [|item results IH] using rev_ind; [done|].
  rewrite foldl_app. simpl. rewrite match_item_refs, IH, omap_app. simpl.
  by destruct (item_ref f2d item).
Qed.

Lemma foldl_match_item_store results i :
  (foldl (match_item f2d) (documents, []) results).1 !! i
  = with_score (assigned f2d results i) <$> documents !! i.
Proof.
  induction results as [|item results IH] using rev_ind.
  { simpl. by destruct (documents !! i). }
  unfold assigned in *. rewrite !foldl_app. simpl.
  destruct item as [[f|] [sc|]|]; simpl; try done.
  destruct (f2d !! f) as [j|] eqn:Hf; simpl; [|done].
  case_bool_decide as Hj.
  - injection Hj as ->.
    rewrite list_lookup_alter_eq, IH.
    destruct (documents !! i); simpl; [|done].
    by rewrite set_with_score.
  - rewrite list_lookup_alter_ne; [done|congruence].
Qed.

Lemma foldl_match_item_length results :
  length (foldl (match_item f2d) (documents, []) results).1 = length documents.
Proof.
  induction results as [|item results IH] using rev_ind; [done|].
  rewrite foldl_app. simpl.
  destruct item as [[f|] [sc|]|]; simpl; try done.
  destruct (f2d !! f); simpl; [|done]. by rewrite length_alter.
Qed.
End Matching.

Lemma assigned_last_named documents results i f :
  last_named documents f i →
  assigned (filename_to_doc documents) results i = last_score results f.
Proof.
  intros Hlast. unfold assigned, last_score.
  induction results as [|item results IH] using rev_ind; [done|].
  rewrite !foldl_app. simpl. rewrite IH.
  destruct item as [[f'|] [sc|]|]; try done.
  destruct (String.eqb_spec f' f) as [->|Hne].
  - rewrite bool_decide_eq_true_2; [done|]. by apply filename_to_doc_spec.
  - rewrite bool_decide_eq_false_2; [done|].
    intros Hf'. apply filename_to_doc_spec in Hf'.
    by apply Hne, (last_named_inj documents f' f i).
Qed.

Lemma assigned_not_last documents results i :
  (∀ f, ¬ last_named documents f i) →
  assigned (filename_to_doc documents) results i = None.
Proof.
  intros Hno. unfold assigned.
  induction results as [|item results IH] using rev_ind; [done|].
  rewrite !foldl_app. simpl. rewrite IH.
  destruct item as [[f'|] [sc|]|]; try done.
  rewrite bool_decide_eq_false_2; [done|].
  intros Hf'. by apply filename_to_doc_spec, Hno in Hf'.
Qed.

Lemma last_score_is_Some results f sc :
  ItemDict (Some f) (Some sc) ∈ results → is_Some (last_score results f).
Proof.
  unfold last_score.
  induction results as [|item results IH] using rev_ind.
  { by intros ?%elem_of_nil. }
  rewrite elem_of_app, list_elem_of_singleton, foldl_app. simpl.
  intros [Hin| <-].
  - destruct item as [[f'|] [sc'|]|]; try by apply IH.
    destruct (String.eqb f' f); [eauto|by apply IH].
  - rewrite String.eqb_refl. eauto.
Qed.

Lemma last_score_elem results f sc :
  last_score results f = Some sc → ItemDict (Some f) (Some sc) ∈ results.
Proof.
  unfold last_score.
  induction results as [|item results IH] using rev_ind; [done|].
  rewrite elem_of_app, list_elem_of_singleton, foldl_app. simpl.
  destruct item as [[f'|] [sc'|]|]; try (intros ?; left; by apply IH).
  destruct (String.eqb_spec f' f) as [->|Hne].
  - intros [= ->]. by right.
  - intros ?; left; by apply IH.
Qed.

(** ** Reading references *)
Section Deref.
Context (store : list Document).
Implicit Types (refs : list nat).

Lemma deref_cons i d refs :
  store !! i = Some d → deref store (i :: refs) = d :: deref store refs.
Proof. intros H. unfold deref. simpl. by rewrite H. Qed.

Lemma deref_length refs : valid_refs store refs → length (deref store refs) = length refs.
Proof.
  induction 1 as [|i refs [d Hd] _ IH]; [done|].
  rewrite (deref_cons i d) by done. simpl. by rewrite IH.
Qed.

Lemma deref_take n refs :
  valid_refs store refs → deref store (take n refs) = take n (deref store refs).
Proof.
  intros Hv. revert n. induction Hv as [|i refs [d Hd] _ IH]; intros [|n]; try done.
  change (take (S n) (i :: refs)) with (i :: take n refs).
  rewrite (deref_cons i d _ Hd), (deref_cons i d _ Hd). simpl. by rewrite IH.
Qed.

Lemma deref_py_slice_to n refs :
  valid_refs store refs → deref store (py_slice_to n refs) = py_slice_to n (deref store refs).
Proof.
  intros Hv. unfold py_slice_to. rewrite deref_length by done.
  destruct (0 <=? n); by apply deref_take.
Qed.

Lemma deref_limit_top_n top_n refs :
  valid_refs store refs →
  deref store (limit_top_n top_n refs) = limit_top_n top_n (deref store refs).
Proof.
  intros Hv. destruct top_n as [n|]; simpl; [|done].
  destruct (negb (n =? 0)); [|done]. by apply deref_py_slice_to.
Qed.

Lemma deref_insert_desc i d refs :
  store !! i = Some d → valid_refs store refs →
  deref store (insert_desc (doc_key store) i refs)
  = insert_desc reranking_score d (deref store refs).
Proof.
  intros Hi. induction 1 as [|j refs [dj Hj] _ IH].
  { cbn [insert_desc]. by rewrite (deref_cons i d _ Hi). }
  rewrite (deref_cons j dj _ Hj). cbn [insert_desc].
  assert (doc_key store j = reranking_score dj) as -> by (unfold doc_key; by rewrite Hj).
  assert (doc_key store i = reranking_score d) as Hk by (unfold doc_key; by rewrite Hi).
  rewrite Hk.
  destruct (key_leb (reranking_score dj) (reranking_score d)).
  - by rewrite (deref_cons i d _ Hi), (deref_cons j dj _ Hj).
  - by rewrite (deref_cons j dj _ Hj), IH.
Qed.

Lemma deref_sort_desc refs :
  valid_refs store refs →
  deref store (sort_desc (doc_key store) refs)
  = sort_desc reranking_score (deref store refs).
Proof.
  induction 1 as [|i refs [d Hd] Hv IH]; [done|].
  rewrite (deref_cons i d _ Hd). cbn [sort_desc foldr].
  fold (sort_desc (doc_key store) refs). fold (sort_desc reranking_score (deref store refs)).
  rewrite <-IH. apply deref_insert_desc; [done|].
  unfold valid_refs. by rewrite sort_desc_perm.
Qed.
End Deref.

Lemma match_results_refs documents results :
  (match_results documents results).2
  = omap (item_ref (filename_to_doc documents)) results.
Proof. apply foldl_match_item_refs. Qed.

Lemma match_results_store documents results i :
  (match_results documents results).1 !! i
  = with_score (assigned (filename_to_doc documents) results i) <$> documents !! i.
Proof. apply foldl_match_item_store. Qed.

Lemma match_results_valid documents results :
  valid_refs (match_results documents results).1 (match_results documents results).2.
Proof.
  unfold valid_refs. rewrite match_results_refs. apply Forall_forall. intros i Hi.
  apply list_elem_of_omap in Hi as (item & _ & Hi).
  destruct item as [[f|] [sc|]|]; try done. simpl in Hi.
  apply filename_to_doc_spec in Hi as [(d & Hd & _) _].
  rewrite match_results_store, Hd. eauto.
Qed.

Lemma deref_omap {A} store (f : A → option nat) (l : list A) :
  deref store (omap f l) = omap (λ x, f x ≫= λ i, store !! i) l.
Proof.
  unfold deref. induction l as [|x l IH]; [done|]. simpl.
  destruct (f x) as [i|]; simpl; [|done].
  destruct (store !! i); f_equal; exact IH.
Qed.

Lemma omap_ext_elem {A B} (f g : A → option B) (l : list A) :
  (∀ x, x ∈ l → f x = g x) → omap f l = omap g l.
Proof.
  induction l as [|x l IH]; intros H; [done|].
  assert (omap f l = omap g l) as IH' by (apply IH; intros y Hy; apply H; by right).
  simpl. rewrite (H x) by left.
  destruct (g x) as [y|]; [exact (f_equal (cons y) IH')|exact IH'].
Qed.

(** The documents the loop collects are the matched documents. *)
Lemma deref_match_results documents results :
  deref (match_results documents results).1 (match_results documents results).2
  = matched_docs documents results.
Proof.
  rewrite match_results_refs, deref_omap. apply omap_ext_elem.
  intros item Hin. destruct item as [[f|] [sc|]|]; try done. simpl.
  destruct (filename_to_doc documents !! f) as [i|] eqn:Hi; simpl; [|done].
  apply filename_to_doc_spec in Hi as Hlast.
  rewrite match_results_store, (assigned_last_named _ _ _ f) by done.
  destruct Hlast as [(d & -> & _) _]. simpl.
  by destruct (last_score_is_Some _ _ _ Hin) as [sc' ->].
Qed.

Lemma ranked_deref documents results top_n :
  deref (ranked documents results).1 (limit_top_n top_n (ranked documents results).2)
  = limit_top_n top_n (sort_desc reranking_score (matched_docs documents results)).
Proof.
  unfold ranked. simpl.
  pose proof (match_results_valid documents results) as Hv.
  rewrite deref_limit_top_n.
  - by rewrite deref_sort_desc, deref_match_results.
  - unfold valid_refs. by rewrite sort_desc_perm.
Qed.

(** ** What [_rerank_async] returns *)

Lemma limit_top_n_pos {A} n (l : list A) :
  limit_top_n (if negb (n =? 0) && negb (0 <? n) then None else Some n) l
  = truncate_pos (Some n) l.
Proof.
  unfold limit_top_n, truncate_pos, py_slice_to.
  destruct (Z.eqb_spec n 0) as [->|H0]; simpl; [done|].
  destruct (Z.ltb_spec 0 n); simpl.
  - destruct (Z.eqb_spec n 0); [lia|]. simpl.
    by destruct (Z.leb_spec 0 n); [|lia].
  - done.
Qed.

Lemma bind_result {A B} (m : M A) (f : A → M B) :
  (m ≫= f).2 = match m.2 with Ok a => (f a).2 | Raise e => Raise e end.
Proof. unfold mbind, M_bind. by destruct m.2. Qed.

Lemma bind_trace {A B} (m : M A) (f : A → M B) :
  (m ≫= f).1 = m.1 ++ match m.2 with Ok a => (f a).1 | Raise e => [] end.
Proof. unfold mbind, M_bind. destruct m.2; simpl; by rewrite ?app_nil_r. Qed.

Lemma checked_top_n_result self_top_n :
  (checked_top_n self_top_n).2 = Ok (usable_top_n self_top_n).
Proof.
  destruct self_top_n as [n|]; simpl; [|done].
  by destruct (negb (n =? 0) && negb (0 <? n)).
Qed.

Lemma limit_usable_top_n {A} top_n (l : list A) :
  limit_top_n (usable_top_n top_n) l = truncate_pos top_n l.
Proof. destruct top_n as [n|]; [apply limit_top_n_pos|done]. Qed.

Lemma rerank_try_success w top_n token_limit query documents results :
  (rank_code_files w query (codebase_of documents) token_limit).2 = Ok results →
  (rerank_try w top_n token_limit query documents).2
  = Ok (limit_top_n top_n (sort_desc reranking_score (matched_docs documents results))).
Proof.
  intros Hok. unfold rerank_try. rewrite (bind_ok _ _ _ Hok). unfold try_except.
  cbn -[ranked deref limit_top_n sort_desc matched_docs rank_code_files].
  by rewrite ranked_deref.
Qed.

Lemma rerank_try_failure w top_n token_limit query documents e :
  (rank_code_files w query (codebase_of documents) token_limit).2 = Raise e →
  (rerank_try w top_n token_limit query documents).2 = Ok documents.
Proof.
  intros Hr. unfold rerank_try. rewrite (bind_raise _ _ _ Hr).
  by rewrite (try_except_raise _ _ e).
Qed.

(** What [_rerank_async] returns when the call to the service succeeds *)
Lemma rerank_async_success w top_n token_limit query documents results :
  documents ≠ [] →
  (rank_code_files w query (codebase_of documents) token_limit).2 = Ok results →
  (_rerank_async w top_n token_limit query documents).2
  = Ok (truncate_pos top_n (sort_desc reranking_score (matched_docs documents results))).
Proof.
  intros Hne Hok. unfold _rerank_async.
  destruct documents as [|d0 ds]; [done|].
  rewrite bind_result, checked_top_n_result.
  rewrite (rerank_try_success _ _ _ _ _ _ Hok). by rewrite limit_usable_top_n.
Qed.

(** What it returns when the call raises *)
Lemma rerank_async_failure w top_n token_limit query documents e :
  (rank_code_files w query (codebase_of documents) token_limit).2 = Raise e →
  (_rerank_async w top_n token_limit query documents).2 = Ok documents.
Proof.
  intros Hr. unfold _rerank_async.
  destruct documents as [|d0 ds]; [done|].
  rewrite bind_result, checked_top_n_result.
  by rewrite (rerank_try_failure _ _ _ _ _ _ Hr).
Qed.

(** ** Matching, order and ties (C1) *)

Lemma elem_of_matched_docs documents results d :
  d ∈ matched_docs documents results ↔
  ∃ i d0 score,
    documents !! i = Some d0 ∧
    last_named documents (filename_of i d0) i ∧
    last_score results (filename_of i d0) = Some score ∧
    d = set_reranking_score score d0.
Proof.
  unfold matched_docs. rewrite list_elem_of_omap. split.
  - intros (item & Hin & Hd). destruct item as [[f|] [sc|]|]; try done. simpl in Hd.
    destruct (filename_to_doc documents !! f) as [i|] eqn:Hi; [|done]. simpl in Hd.
    destruct (documents !! i) as [d0|] eqn:Hd0; [|done]. simpl in Hd.
    destruct (last_score results f) as [score|] eqn:Hs; [|done]. simpl in Hd.
    apply filename_to_doc_spec in Hi as Hlast.
    assert (filename_of i d0 = f) as <-.
    { destruct Hlast as [(d' & Hd' & Hf) _]. congruence. }
    injection Hd as <-. by exists i, d0, score.
  - intros (i & d0 & score & Hd0 & Hlast & Hs & ->).
    exists (ItemDict (Some (filename_of i d0)) (Some score)). split.
    + by apply last_score_elem.
    + simpl. apply filename_to_doc_spec in Hlast. rewrite Hlast. simpl.
      rewrite Hd0. simpl. by rewrite Hs.
Qed.

Lemma sorted_desc_truncate_pos {A} (key : A → Score) top_n (l : list A) :
  sorted_desc key l → sorted_desc key (truncate_pos top_n l).
Proof.
  intros Hs. destruct top_n as [n|]; simpl; [|done].
  destruct (0 <? n); [|done]. unfold sorted_desc in *.
  generalize (Z.to_nat n). clear n.
  induction Hs as [|x l Hl IH Hx]; intros [|m]; try constructor.
  - apply IH.
  - by apply Forall_take.
Qed.

(** C1, as the code has it.  When the documents are not empty and the call to
    the rerank service succeeds, [_rerank_async] returns the first [top_n]
    entries (all of them unless [top_n] is positive) of a list that
    - has one entry for every pair of the response whose file name is the name
      of a document: the last document of that name with the last score the
      response gives the name,
    - is in descending order of [reranking_score], a [null] score last,
    - keeps entries of equal score in the order of the response;
    a document is in that list exactly when it is the last of its name and the
    response scores the name, so unmatched documents are dropped. *)
Theorem rerank_async_matched_sorted_stable w top_n token_limit query documents results :
  documents ≠ [] →
  (rank_code_files w query (codebase_of documents) token_limit).2 = Ok results →
  ∃ ranked_docs,
    (_rerank_async w top_n token_limit query documents).2
      = Ok (truncate_pos top_n ranked_docs)
    ∧ sorted_desc reranking_score (truncate_pos top_n ranked_docs)
    ∧ ranked_docs ≡ₚ matched_docs documents results
    ∧ sorted_desc reranking_score ranked_docs
    ∧ (∀ k, with_key reranking_score k ranked_docs
            = with_key reranking_score k (matched_docs documents results))
    ∧ (∀ d, d ∈ ranked_docs ↔
         ∃ i d0 score,
           documents !! i = Some d0 ∧
           last_named documents (filename_of i d0) i ∧
           last_score results (filename_of i d0) = Some score ∧
           d = set_reranking_score score d0).
Proof.
  intros Hne Hok.
  exists (sort_desc reranking_score (matched_docs documents results)).
  split; [by apply rerank_async_success|].
  split; [apply sorted_desc_truncate_pos, sort_desc_sorted|].
  split; [apply sort_desc_perm|].
  split; [apply sort_desc_sorted|].
  split; [intros k; apply sort_desc_stable|].
  intros d. rewrite sort_desc_perm. apply elem_of_matched_docs.
Qed.

Lemma rerank_async_matched_sorted_stable_witness :
  ex_three ≠ [] ∧
  (rank_code_files (ex_rerank_world ex_results_ba) "q" (codebase_of ex_three) 150000).2
    = Ok ex_results_ba ∧
  ∃ ranked_docs,
    (_rerank_async (ex_rerank_world ex_results_ba) (Some 1) 150000 "q" ex_three).2
      = Ok (truncate_pos (Some 1) ranked_docs)
    ∧ sorted_desc reranking_score (truncate_pos (Some 1) ranked_docs)
    ∧ ranked_docs ≡ₚ matched_docs ex_three ex_results_ba
    ∧ sorted_desc reranking_score ranked_docs
    ∧ (∀ k, with_key reranking_score k ranked_docs
            = with_key reranking_score k (matched_docs ex_three ex_results_ba))
    ∧ (∀ d, d ∈ ranked_docs ↔
         ∃ i d0 score,
           ex_three !! i = Some d0 ∧
           last_named ex_three (filename_of i d0) i ∧
           last_score ex_results_ba (filename_of i d0) = Some score ∧
           d = set_reranking_score score d0).
Proof.
  split; [discriminate|]. split; [reflexivity|].
  apply (rerank_async_matched_sorted_stable
           (ex_rerank_world ex_results_ba) (Some 1) 150000 "q" ex_three ex_results_ba);
    [discriminate|reflexivity].
Defined.

(** C1 as worded fails.  When two documents share a name, the first of them
    has a name the response scores, and is not returned.  And with distinct
    names and [top_n = 1], of two documents the response scores only the
    better one is returned. *)
Lemma rerank_async_shadowed_document_dropped :
  (ex_same_name ≠ [] ∧
   (rank_code_files (ex_rerank_world ex_results_a) "q" (codebase_of ex_same_name) 150000).2
     = Ok ex_results_a ∧
   (_rerank_async (ex_rerank_world ex_results_a) None 150000 "q" ex_same_name).2
     = Ok [set_reranking_score (Some (9#10)) (ex_doc "2" "a.py")] ∧
   ¬ exactly_the_matched ex_same_name ex_results_a
       [set_reranking_score (Some (9#10)) (ex_doc "2" "a.py")]) ∧
  (ex_three ≠ [] ∧
   (rank_code_files (ex_rerank_world ex_results_ba) "q" (codebase_of ex_three) 150000).2
     = Ok ex_results_ba ∧
   (_rerank_async (ex_rerank_world ex_results_ba) (Some 1) 150000 "q" ex_three).2
     = Ok [set_reranking_score (Some (9#10)) (ex_doc "1" "a.py")] ∧
   ¬ exactly_the_matched ex_three ex_results_ba
       [set_reranking_score (Some (9#10)) (ex_doc "1" "a.py")]).
Proof.
  split.
  - split; [discriminate|]. split; [reflexivity|]. split; [reflexivity|].
    intros H. destruct (H 0%nat (ex_doc "1" "a.py") eq_refl) as [Hmatched _].
    destruct Hmatched as (d' & Hd' & _ & Hid & _).
    + exists (Some (9#10)). left.
    + apply list_elem_of_singleton in Hd' as ->. discriminate Hid.
  - split; [discriminate|]. split; [reflexivity|]. split; [reflexivity|].
    intros H. destruct (H 1%nat (ex_doc "2" "b.py") eq_refl) as [Hmatched _].
    destruct Hmatched as (d' & Hd' & _ & Hid & _).
    + exists (Some (1#2)). left.
    + apply list_elem_of_singleton in Hd' as ->. discriminate Hid.
Qed.

(** ** Documents that share a name (C3) *)

Lemma not_last_named_any documents i d :
  documents !! i = Some d →
  ¬ last_named documents (filename_of i d) i → ∀ f, ¬ last_named documents f i.
Proof.
  intros Hd Hno f Hf. apply Hno.
  destruct Hf as [(d' & Hd' & Hf') Hl] eqn:E. clear E.
  assert (d' = d) as -> by congruence. by rewrite Hf'.
Qed.

(** C3, as the code has it.  Of the documents that share a name only the last
    one receives a score: after the matching loop the last document of a name
    carries the last score the response gives that name (and is untouched if
    the response does not score the name), while every other document of
    that name is untouched and is not collected. *)
Theorem last_match_wins documents results i d :
  documents !! i = Some d →
  (last_named documents (filename_of i d) i →
     (match_results documents results).1 !! i
     = Some (with_score (last_score results (filename_of i d)) d)) ∧
  (¬ last_named documents (filename_of i d) i →
     (match_results documents results).1 !! i = Some d ∧
     i ∉ (match_results documents results).2).
Proof.
  intros Hd. split.
  - intros Hlast. rewrite match_results_store, Hd. simpl.
    by rewrite (assigned_last_named _ _ _ _ Hlast).
  - intros Hno. split.
    + rewrite match_results_store, Hd. simpl.
      rewrite assigned_not_last; [done|]. by eapply not_last_named_any.
    + rewrite match_results_refs, list_elem_of_omap.
      intros (item & _ & Hi). destruct item as [[f|] [sc|]|]; try done.
      simpl in Hi. apply filename_to_doc_spec in Hi.
      by eapply not_last_named_any.
Qed.

Lemma last_match_wins_witness :
  ex_same_name !! 0%nat = Some (ex_doc "1" "a.py") ∧
  (last_named ex_same_name (filename_of 0 (ex_doc "1" "a.py")) 0 →
     (match_results ex_same_name ex_results_a).1 !! 0%nat
     = Some (with_score (last_score ex_results_a (filename_of 0 (ex_doc "1" "a.py")))
               (ex_doc "1" "a.py"))) ∧
  (¬ last_named ex_same_name (filename_of 0 (ex_doc "1" "a.py")) 0 →
     (match_results ex_same_name ex_results_a).1 !! 0%nat = Some (ex_doc "1" "a.py") ∧
     0%nat ∉ (match_results ex_same_name ex_results_a).2).
Proof.
  split; [reflexivity|].
  apply (last_match_wins ex_same_name ex_results_a 0 (ex_doc "1" "a.py")). reflexivity.
Defined.

(** C3 as worded fails: of two documents called [a.py] the second receives
    the score and is returned, the first stays without a score. *)
Lemma first_match_does_not_win :
  (match_results ex_same_name ex_results_a).1
    = [ex_doc "1" "a.py"; set_reranking_score (Some (9#10)) (ex_doc "2" "a.py")] ∧
  (_rerank_async (ex_rerank_world ex_results_a) None 150000 "q" ex_same_name).2
    = Ok [set_reranking_score (Some (9#10)) (ex_doc "2" "a.py")] ∧
  ¬ first_match_wins ex_same_name ex_results_a.
Proof.
  split; [reflexivity|]. split; [reflexivity|].
  intros H.
  destruct (H 0%nat (ex_doc "1" "a.py") (Some (9#10)) eq_refl eq_refl) as [Hfirst _].
  assert (first_named ex_same_name (filename_of 0 (ex_doc "1" "a.py")) 0) as Hf.
  { split; [by exists (ex_doc "1" "a.py")|]. intros j d' Hj. lia. }
  apply Hfirst in Hf. discriminate Hf.
Qed.

(** ** What a run can log and send *)

Section Traces.
Context (P : Event → Prop).

Lemma Forall_bind {A B} (m : M A) (f : A → M B) :
  Forall P m.1 → (∀ a, Forall P (f a).1) → Forall P (m ≫= f).1.
Proof.
  intros Hm Hf. rewrite bind_trace. apply Forall_app. split; [done|].
  destruct m.2; [apply Hf|constructor].
Qed.

Lemma Forall_try_except {A} (m : M A) h :
  Forall P m.1 → (∀ e, Forall P (h e).1) → Forall P (try_except m h).1.
Proof.
  intros Hm Hh. unfold try_except. destruct m.2; [done|].
  simpl. apply Forall_app. by split.
Qed.

Lemma Forall_emit e : P e → Forall P (emit e).1.
Proof. intros H. by constructor. Qed.

Lemma Forall_emit_then {A} e (m : M A) :
  P e → Forall P m.1 → Forall P (emit e ≫= λ _, m).1.
Proof. intros He Hm. apply Forall_bind; [by apply Forall_emit|done]. Qed.
End Traces.

Lemma validate_items_events items :
  Forall (λ e, e = Warning SkippingInvalidItem) (validate_items items).1.
Proof.
  induction items as [|item items IH]; [constructor|]. simpl.
  destruct (item_valid item).
  - apply Forall_bind; [done|]. intros a. constructor.
  - by apply Forall_emit_then.
Qed.

Lemma validate_items_result items :
  (validate_items items).2 = Ok (List.filter item_valid items).
Proof.
  induction items as [|item items IH]; [done|]. simpl.
  destruct (item_valid item).
  - by rewrite bind_result, IH.
  - by rewrite bind_result.
Qed.

Lemma rank_code_files_events w query codebase token_limit :
  Forall (λ e, client_event e = true) (rank_code_files w query codebase token_limit).1.
Proof.
  unfold rank_code_files. apply Forall_try_except.
  - destruct codebase as [|c cs].
    { apply Forall_emit_then; [done|constructor]. }
    apply Forall_emit_then; [done|].
    destruct (rerank_service w query (c :: cs) token_limit) as [|status result];
      [constructor|].
    destruct (status =? 200).
    + assert (∀ items, Forall (λ e, client_event e = true) (validate_items items).1) as Hv.
      { intros items. eapply Forall_impl; [apply validate_items_events|]. by intros e ->. }
      destruct result as [[[items|]|]|items|]; try apply Hv;
        (apply Forall_emit_then; [done|constructor]).
    + apply Forall_emit_then; [done|constructor].
  - intros e. apply Forall_emit_then; [done|constructor].
Qed.

Lemma rerank_try_events w top_n token_limit query documents :
  Forall (λ e, try_event e = true) (rerank_try w top_n token_limit query documents).1.
Proof.
  unfold rerank_try. apply Forall_try_except.
  - apply Forall_bind.
    + eapply Forall_impl; [apply rank_code_files_events|].
      intros e He. unfold try_event. by rewrite He.
    + intros a. constructor.
  - intros e. apply Forall_emit_then; [done|constructor].
Qed.

Lemma _rerank_events w top_n token_limit query documents :
  Forall (λ e, try_event e = true) (_rerank w top_n token_limit query documents).1.
Proof.
  unfold _rerank. apply Forall_try_except.
  - apply Forall_bind.
    + eapply Forall_impl; [apply rank_code_files_events|].
      intros e He. unfold try_event. by rewrite He.
    + intros a. constructor.
  - intros e. apply Forall_emit_then; [done|constructor].
Qed.

Lemma existsb_false_Forall {A} (p : A → bool) (l : list A) :
  Forall (λ x, p x = false) l → existsb p l = false.
Proof. induction 1 as [|x l Hx _ IH]; [done|]. simpl. by rewrite Hx, IH. Qed.

Lemma try_event_not_top_n e : try_event e = true → is_top_n_warning e = false.
Proof. by destruct e as [c|[]|[]]. Qed.

Lemma try_event_not_empty_call e : try_event e = true → is_empty_rerank_call e = false.
Proof. by destruct e as [[q [|c cs] tl| | | |]|[]|[]]. Qed.

(** ** The limit [top_n] (C10) *)

Lemma limit_if_positive_truncate {A} top_n (l : list A) :
  limit_if_positive top_n l = truncate_pos top_n l.
Proof.
  destruct top_n as [n|]; [|done]. unfold limit_if_positive, truncate_pos, py_slice_to.
  destruct (Z.eqb_spec n 0) as [->|H0]; simpl; [done|].
  destruct (Z.ltb_spec 0 n); [|done].
  by destruct (Z.leb_spec 0 n); [|lia].
Qed.

Lemma rerank_sync_success w top_n token_limit query documents results :
  (rank_code_files w query (codebase_of documents) token_limit).2 = Ok results →
  (_rerank w top_n token_limit query documents).2
  = Ok (truncate_pos top_n (sort_desc reranking_score (matched_docs documents results))).
Proof.
  intros Hok. unfold _rerank, rank_code_files_sync.
  rewrite (bind_ok _ _ _ Hok). unfold try_except.
  cbn -[ranked deref limit_if_positive sort_desc matched_docs rank_code_files].
  rewrite limit_if_positive_truncate, <-limit_usable_top_n, ranked_deref.
  by rewrite limit_usable_top_n.
Qed.

Lemma rerank_async_top_n_warning w top_n token_limit query d ds :
  existsb is_top_n_warning (_rerank_async w top_n token_limit query (d :: ds)).1
  = match top_n with Some n => n <? 0 | None => false end.
Proof.
  unfold _rerank_async. rewrite bind_trace, checked_top_n_result, existsb_app.
  rewrite (existsb_false_Forall _ (rerank_try _ _ _ _ _).1), orb_false_r.
  - destruct top_n as [n|]; [|done]. simpl.
    destruct (Z.eqb_spec n 0) as [->|H0]; [done|].
    destruct (Z.ltb_spec 0 n), (Z.ltb_spec n 0); simpl; try done; lia.
  - eapply Forall_impl; [apply rerank_try_events|]. apply try_event_not_top_n.
Qed.

(** C10, as the code has it.  With a [top_n] that is zero or negative neither
    [_rerank_async] nor [_rerank] cuts the list: when the call to the service
    succeeds both return all matched documents, in order.  Only a strictly
    positive [top_n] truncates, to the first [top_n].  The warning is logged
    by [_rerank_async] alone, and only when [top_n] is negative: zero passes
    silently, and [_rerank] never warns. *)
Theorem top_n_truncates_only_when_positive w n token_limit query documents results :
  documents ≠ [] →
  (rank_code_files w query (codebase_of documents) token_limit).2 = Ok results →
  (n ≤ 0 →
     (_rerank_async w (Some n) token_limit query documents).2
       = Ok (sort_desc reranking_score (matched_docs documents results)) ∧
     (_rerank w (Some n) token_limit query documents).2
       = Ok (sort_desc reranking_score (matched_docs documents results))) ∧
  (0 < n →
     (_rerank_async w (Some n) token_limit query documents).2
       = Ok (take (Z.to_nat n) (sort_desc reranking_score (matched_docs documents results))) ∧
     (_rerank w (Some n) token_limit query documents).2
       = Ok (take (Z.to_nat n) (sort_desc reranking_score (matched_docs documents results)))) ∧
  existsb is_top_n_warning (_rerank_async w (Some n) token_limit query documents).1
    = (n <? 0) ∧
  existsb is_top_n_warning (_rerank w (Some n) token_limit query documents).1 = false.
Proof.
  intros Hne Hok.
  pose proof (rerank_async_success w (Some n) _ _ _ _ Hne Hok) as Ha.
  pose proof (rerank_sync_success w (Some n) _ _ _ _ Hok) as Hs.
  unfold truncate_pos in Ha, Hs.
  split; [|split; [|split]].
  - intros Hn. destruct (Z.ltb_spec 0 n); [lia|done].
  - intros Hn. destruct (Z.ltb_spec 0 n); [done|lia].
  - destruct documents as [|d ds]; [done|]. apply rerank_async_top_n_warning.
  - apply existsb_false_Forall. eapply Forall_impl; [apply _rerank_events|].
    apply try_event_not_top_n.
Qed.

Lemma top_n_truncates_only_when_positive_witness :
  ex_three ≠ [] ∧
  (rank_code_files (ex_rerank_world ex_results_ba) "q" (codebase_of ex_three) 150000).2
    = Ok ex_results_ba ∧
  ((-1) ≤ 0 →
     (_rerank_async (ex_rerank_world ex_results_ba) (Some (-1)) 150000 "q" ex_three).2
       = Ok (sort_desc reranking_score (matched_docs ex_three ex_results_ba)) ∧
     (_rerank (ex_rerank_world ex_results_ba) (Some (-1)) 150000 "q" ex_three).2
       = Ok (sort_desc reranking_score (matched_docs ex_three ex_results_ba))) ∧
  (0 < (-1) →
     (_rerank_async (ex_rerank_world ex_results_ba) (Some (-1)) 150000 "q" ex_three).2
       = Ok (take (Z.to_nat (-1))
               (sort_desc reranking_score (matched_docs ex_three ex_results_ba))) ∧
     (_rerank (ex_rerank_world ex_results_ba) (Some (-1)) 150000 "q" ex_three).2
       = Ok (take (Z.to_nat (-1))
               (sort_desc reranking_score (matched_docs ex_three ex_results_ba)))) ∧
  existsb is_top_n_warning
    (_rerank_async (ex_rerank_world ex_results_ba) (Some (-1)) 150000 "q" ex_three).1
    = ((-1) <? 0) ∧
  existsb is_top_n_warning
    (_rerank (ex_rerank_world ex_results_ba) (Some (-1)) 150000 "q" ex_three).1 = false.
Proof.
  split; [discriminate|]. split; [reflexivity|].
  apply (top_n_truncates_only_when_positive
           (ex_rerank_world ex_results_ba) (-1) 150000 "q" ex_three ex_results_ba);
    [discriminate|reflexivity].
Defined.

(** C10 as worded fails at [top_n = 0]: nothing is cut, and no warning is
    logged either. *)
Lemma zero_top_n_logs_no_warning :
  _rerank_async (ex_rerank_world ex_results_ba) (Some 0) 150000 "q" ex_three
  = ([Net (RerankPost "q" (codebase_of ex_three) 150000)],
     Ok [set_reranking_score (Some (9#10)) (ex_doc "1" "a.py");
         set_reranking_score (Some (1#2)) (ex_doc "2" "b.py")]) ∧
  filter (λ e, is_warning e = true)
    (_rerank_async (ex_rerank_world ex_results_ba) (Some 0) 150000 "q" ex_three).1 = [].
Proof. split; reflexivity. Qed.

(** ** No candidates, no request (C8) *)

Lemma checked_top_n_events top_n :
  Forall (λ e, is_top_n_warning e = true) (checked_top_n top_n).1.
Proof.
  destruct top_n as [n|]; simpl; [|constructor].
  destruct (negb (n =? 0) && negb (0 <? n)); repeat constructor.
Qed.

Lemma _rerank_async_events w top_n token_limit query documents :
  Forall (λ e, reranker_event e = true)
    (_rerank_async w top_n token_limit query documents).1.
Proof.
  unfold _rerank_async. destruct documents as [|d ds]; [constructor|].
  apply Forall_bind.
  - eapply Forall_impl; [apply checked_top_n_events|].
    intros e He. unfold reranker_event. by rewrite He, orb_true_r.
  - intros a. eapply Forall_impl; [apply rerank_try_events|].
    intros e He. unfold reranker_event. by rewrite He.
Qed.

Lemma rerank_async_events w top_n token_limit query documents :
  Forall (λ e, reranker_event e = true)
    (rerank_async w top_n token_limit query documents).1.
Proof.
  unfold rerank_async. apply Forall_try_except; [apply _rerank_async_events|].
  intros e. apply Forall_emit_then; [done|constructor].
Qed.

Lemma retriever_events w query namespace rerank top_k kw :
  Forall (λ e, retriever_event e = true) (retriever w query namespace rerank top_k kw).1.
Proof.
  unfold retriever. apply Forall_try_except.
  2:{ intros e. apply Forall_emit_then; [done|constructor]. }
  unfold retriever_body.
  destruct (negb (str_truthy (getenv w "PINECONE_API_KEY"))).
  { apply Forall_emit_then; [done|constructor]. }
  destruct (negb (str_truthy (getenv w "RELACE_API_KEY"))).
  { apply Forall_emit_then; [done|constructor]. }
  apply Forall_emit_then; [done|].
  destruct (vector_db_search _ _ _ _) as [[[|r rs]|]|e]; try constructor.
  apply Forall_bind; [|intros a; constructor].
  destruct rerank; [|constructor].
  apply Forall_try_except.
  - eapply Forall_impl; [apply rerank_async_events|].
    intros e He. unfold retriever_event. by rewrite He.
  - intros e. apply Forall_emit_then; [done|constructor].
Qed.

Lemma reranker_event_not_empty_call e :
  reranker_event e = true → is_empty_rerank_call e = false.
Proof. by destruct e as [[q [|c cs] tl| | | |]|[]|[]]. Qed.

Lemma retriever_event_not_empty_call e :
  retriever_event e = true → is_empty_rerank_call e = false.
Proof. by destruct e as [[q [|c cs] tl| | | |]|[]|[]]. Qed.

Lemma limit_if_positive_nil {A} top_n : limit_if_positive top_n (@nil A) = [].
Proof.
  rewrite limit_if_positive_truncate. destruct top_n as [n|]; [|done]. simpl.
  destruct (0 <? n); [|done]. by destruct (Z.to_nat n).
Qed.

(** C8.  With no candidate the reranker returns the empty list and sends
    nothing: [_rerank_async] returns at once, and the client itself, given an
    empty codebase, only logs a warning (this is what the synchronous
    [_rerank] relies on).  No run of the reranker or of the retriever ever
    sends the rerank service a request with an empty codebase. *)
Theorem no_candidates_no_rerank_request w top_n token_limit query :
  _rerank_async w top_n token_limit query [] = ([], Ok []) ∧
  rank_code_files w query [] token_limit = ([Warning EmptyCodebase], Ok []) ∧
  _rerank w top_n token_limit query [] = ([Warning EmptyCodebase], Ok []) ∧
  (∀ documents,
     existsb is_empty_rerank_call
       (rerank_async w top_n token_limit query documents).1 = false) ∧
  (∀ namespace rerank top_k kw,
     existsb is_empty_rerank_call
       (retriever w query namespace rerank top_k kw).1 = false).
Proof.
  split; [reflexivity|]. split; [reflexivity|]. split; [|split].
  - unfold _rerank, rank_code_files_sync.
    change (rank_code_files w query (codebase_of []) token_limit)
      with ([Warning EmptyCodebase], @Ok (list RankItem) []).
    unfold mbind, M_bind, try_except. cbn [fst snd].
    change (ranked [] []) with (@nil Document, @nil nat). cbn [fst snd].
    by rewrite limit_if_positive_nil.
  - intros documents. apply existsb_false_Forall.
    eapply Forall_impl; [apply rerank_async_events|].
    apply reranker_event_not_empty_call.
  - intros. apply existsb_false_Forall.
    eapply Forall_impl; [apply retriever_events|].
    apply retriever_event_not_empty_call.
Qed.

(** ** Zero matches (C9) *)

(** C9.  With both keys set, a search that returns no match makes the
    retriever return the empty list, after the search call and nothing else:
    no rerank request, no error logged.  A search that raises makes it return
    [None], so the two outcomes differ. *)
Theorem zero_matches_is_success w query namespace rerank top_k kw :
  str_truthy (getenv w "PINECONE_API_KEY") = true →
  str_truthy (getenv w "RELACE_API_KEY") = true →
  (vector_db_search w query (default 5 kw) (search_namespace namespace) = Ok (RespList []) →
     retriever w query namespace rerank top_k kw
     = ([Net (VectorSearch query (default 5 kw) (search_namespace namespace))],
        Ok (Some []))) ∧
  (∀ e, vector_db_search w query (default 5 kw) (search_namespace namespace) = Raise e →
     retriever w query namespace rerank top_k kw
     = ([Net (VectorSearch query (default 5 kw) (search_namespace namespace));
         Error ErrorDuringRetrieval],
        Ok None)) ∧
  Ok (Some []) ≠ Ok (@None (list FormattedDoc)).
Proof.
  intros Hp Hr. unfold retriever, retriever_body.
  rewrite Hp, Hr. simpl. repeat split.
  - by intros ->.
  - by intros e ->.
  - discriminate.
Qed.

Lemma zero_matches_is_success_witness :
  str_truthy (getenv (ex_world (Ok (RespList [])) HttpRaise) "PINECONE_API_KEY") = true ∧
  str_truthy (getenv (ex_world (Ok (RespList [])) HttpRaise) "RELACE_API_KEY") = true ∧
  (vector_db_search (ex_world (Ok (RespList [])) HttpRaise) "q" (default 5 None)
     (search_namespace (Some "repoA")) = Ok (RespList []) →
     retriever (ex_world (Ok (RespList [])) HttpRaise) "q" (Some "repoA") true None None
     = ([Net (VectorSearch "q" (default 5 None) (search_namespace (Some "repoA")))],
        Ok (Some []))) ∧
  (∀ e, vector_db_search (ex_world (Ok (RespList [])) HttpRaise) "q" (default 5 None)
          (search_namespace (Some "repoA")) = Raise e →
     retriever (ex_world (Ok (RespList [])) HttpRaise) "q" (Some "repoA") true None None
     = ([Net (VectorSearch "q" (default 5 None) (search_namespace (Some "repoA")));
         Error ErrorDuringRetrieval],
        Ok None)) ∧
  Ok (Some []) ≠ Ok (@None (list FormattedDoc)).
Proof.
  split; [reflexivity|]. split; [reflexivity|].
  apply (zero_matches_is_success (ex_world (Ok (RespList [])) HttpRaise)
           "q" (Some "repoA") true None None); reflexivity.
Defined.

(** ** Missing credentials (C6) *)

(** C6, as the code has it.  When one of the two keys is absent from the
    environment (or empty) both retrievers return [None] and no network call
    has been made.  The query itself is not examined. *)
Theorem missing_credential_fails_before_network
    w query namespace rerank top_k kw num_documents repo_namespace :
  str_truthy (getenv w "PINECONE_API_KEY") = false ∨
  str_truthy (getenv w "RELACE_API_KEY") = false →
  (retriever w query namespace rerank top_k kw).2 = Ok None ∧
  existsb is_net (retriever w query namespace rerank top_k kw).1 = false ∧
  (pinecone_retriever w query num_documents repo_namespace).2 = Ok None ∧
  existsb is_net (pinecone_retriever w query num_documents repo_namespace).1 = false.
Proof.
  unfold retriever, retriever_body, pinecone_retriever, pinecone_retriever_body.
  destruct (str_truthy (getenv w "PINECONE_API_KEY")) eqn:Hp; simpl.
  - intros [|Hr]; [done|]. by rewrite Hr.
  - done.
Qed.

Lemma missing_credential_fails_before_network_witness :
  (str_truthy (getenv ex_no_relace_key "PINECONE_API_KEY") = false ∨
   str_truthy (getenv ex_no_relace_key "RELACE_API_KEY") = false) ∧
  (retriever ex_no_relace_key "q" None true None None).2 = Ok None ∧
  existsb is_net (retriever ex_no_relace_key "q" None true None None).1 = false ∧
  (pinecone_retriever ex_no_relace_key "q" 5 None).2 = Ok None ∧
  existsb is_net (pinecone_retriever ex_no_relace_key "q" 5 None).1 = false.
Proof.
  split; [right; reflexivity|].
  apply (missing_credential_fails_before_network
           ex_no_relace_key "q" None true None None 5 None).
  right; reflexivity.
Defined.

(** C6 as worded fails for the empty query: with the keys set it is sent to
    the search like any other query, and the retrieval succeeds. *)
Lemma empty_query_is_searched :
  retriever (ex_world (Ok (RespList [ex_match "1" "a.py" (9#10)])) HttpRaise)
    "" None false None None
  = ([Net (VectorSearch "" 5 None)],
     Ok (Some [format_doc (normalize None (ex_match "1" "a.py" (9#10)))])) ∧
  (pinecone_retriever (ex_world (Ok RespOther) HttpRaise) "" 5 None).1
  = [Net ListIndexes; Net (EmbedPost [""]); Error ErrorDuringRetrieval].
Proof. split; reflexivity. Qed.

(** ** An embedding response without vectors (C5) *)

Lemma raise_for_status_2xx status :
  200 ≤ status < 300 → raise_for_status status = mret ().
Proof.
  intros [H1 H2]. unfold raise_for_status.
  destruct (Z.leb_spec 200 status); [|lia].
  by destruct (Z.ltb_spec status 300); [|lia].
Qed.

(** [get_embedding] itself does not fail on such a body: it logs a warning and
    returns the empty vector. *)
Lemma get_embedding_without_keys w text body :
  embed_service w [text] = HttpResponse 200 body →
  eb_results body = None → eb_data body = None →
  get_embedding w text
  = ([Net (EmbedPost [text]); Warning NoEmbeddingsFound], Ok []).
Proof.
  intros Hs Hr Hd. destruct body as [r d]. simpl in Hr, Hd. subst r d.
  unfold get_embedding, generate_embeddings_sync. by rewrite Hs.
Qed.

(** Whatever the status, [get_embedding] returns the empty vector for such a
    body. *)
Lemma get_embedding_without_keys_result w text status body :
  embed_service w [text] = HttpResponse status body →
  eb_results body = None → eb_data body = None →
  (get_embedding w text).2 = Ok [].
Proof.
  intros Hs Hr Hd. destruct body as [r d]. simpl in Hr, Hd. subst r d.
  unfold get_embedding, generate_embeddings_sync. rewrite Hs.
  by destruct (status =? 200).
Qed.

(** C5, as the code has it.  When the embedding service answers the query with
    a 2xx status and a body that has neither a [results] nor a [data] entry,
    the two retrievals part.  [pinecone_retriever] fails: it returns [None],
    and no vector query has been sent.  [get_embedding], the embedder that
    [retriever] hands to [vector_db.search], does not fail: it returns the
    empty vector to its caller, after the request and one warning when the
    status is 200. *)
Theorem embedding_without_vectors w query num_documents repo_namespace status body :
  embed_service w [query] = HttpResponse status body →
  200 ≤ status < 300 →
  eb_results body = None →
  eb_data body = None →
  ((pinecone_retriever w query num_documents repo_namespace).2 = Ok None ∧
   existsb is_vector_query
     (pinecone_retriever w query num_documents repo_namespace).1 = false) ∧
  (get_embedding w query).2 = Ok [] ∧
  (status = 200 →
   get_embedding w query
   = ([Net (EmbedPost [query]); Warning NoEmbeddingsFound], Ok [])).
Proof.
  intros Hs Hst Hr Hd. split; [|split].
  - unfold pinecone_retriever, pinecone_retriever_body.
    destruct (negb (str_truthy (getenv w "PINECONE_API_KEY"))); [done|].
    destruct (negb (str_truthy (getenv w "RELACE_API_KEY"))); [done|].
    destruct (list_indexes w) as [names|e]; [|done].
    destruct (negb (bool_decide (_ ∈ names))); [done|].
    rewrite Hs, (raise_for_status_2xx _ Hst), Hr. done.
  - exact (get_embedding_without_keys_result _ _ _ _ Hs Hr Hd).
  - intros ->. exact (get_embedding_without_keys _ _ _ Hs Hr Hd).
Qed.

Lemma embedding_without_vectors_witness :
  embed_service (ex_world (Ok RespOther) HttpRaise) ["q"]
    = HttpResponse 200 (mkEmbedBody None None) ∧
  200 ≤ 200 < 300 ∧
  eb_results (mkEmbedBody None None) = None ∧
  eb_data (mkEmbedBody None None) = None ∧
  ((pinecone_retriever (ex_world (Ok RespOther) HttpRaise) "q" 5 None).2 = Ok None ∧
   existsb is_vector_query
     (pinecone_retriever (ex_world (Ok RespOther) HttpRaise) "q" 5 None).1 = false) ∧
  (get_embedding (ex_world (Ok RespOther) HttpRaise) "q").2 = Ok [] ∧
  (200 = 200 →
   get_embedding (ex_world (Ok RespOther) HttpRaise) "q"
   = ([Net (EmbedPost ["q"]); Warning NoEmbeddingsFound], Ok [])).
Proof.
  split; [reflexivity|]. split; [lia|]. split; [reflexivity|]. split; [reflexivity|].
  apply (embedding_without_vectors (ex_world (Ok RespOther) HttpRaise)
           "q" 5 None 200 (mkEmbedBody None None)); [reflexivity|lia|reflexivity..].
Defined.

(** C5 as worded fails for the embedder of [retriever]: on a 200 response
    whose body has neither entry, [get_embedding] signals no failure.  It logs
    a warning and returns the empty vector, so nothing stops its caller,
    [vector_db.search], from going on to the index with it. *)
Lemma get_embedding_swallows_missing_entries :
  embed_service (ex_world (Ok RespOther) HttpRaise) ["q"]
    = HttpResponse 200 (mkEmbedBody None None) ∧
  get_embedding (ex_world (Ok RespOther) HttpRaise) "q"
    = ([Net (EmbedPost ["q"]); Warning NoEmbeddingsFound], Ok []) ∧
  (∀ e, (get_embedding (ex_world (Ok RespOther) HttpRaise) "q").2 ≠ Raise e).
Proof. split; [reflexivity|]. split; [reflexivity|]. intros e H. discriminate H. Qed.

(** ** What the reranker and the retriever return *)

Lemma try_except_result {A} (m : M A) h :
  (try_except m h).2 = match m.2 with Ok a => Ok a | Raise e => (h e).2 end.
Proof. unfold try_except. by destruct m as [t [a|e]]. Qed.

Lemma _rerank_async_result w top_n token_limit query documents :
  (_rerank_async w top_n token_limit query documents).2
  = Ok (rerank_outcome w top_n token_limit query documents).
Proof.
  unfold rerank_outcome. destruct documents as [|d ds]; [done|].
  destruct (rank_code_files w query (codebase_of (d :: ds)) token_limit).2
    as [results|e] eqn:Hr.
  - by apply rerank_async_success.
  - by eapply rerank_async_failure.
Qed.

Lemma rerank_async_result w top_n token_limit query documents :
  (rerank_async w top_n token_limit query documents).2
  = Ok (rerank_outcome w top_n token_limit query documents).
Proof. unfold rerank_async. by rewrite try_except_result, _rerank_async_result. Qed.

(** [retriever] never raises. *)
Lemma retriever_result w query namespace rerank top_k kw :
  (retriever w query namespace rerank top_k kw).2
  = Ok (retriever_outcome w query namespace rerank top_k kw).
Proof.
  unfold retriever, retriever_outcome, retriever_body.
  rewrite try_except_result.
  destruct (negb (str_truthy (getenv w "PINECONE_API_KEY"))); [done|].
  destruct (negb (str_truthy (getenv w "RELACE_API_KEY"))); [done|].
  rewrite bind_result. cbn [emit snd].
  destruct (vector_db_search _ _ _ _) as [[[|r rs]|]|e]; try done.
  rewrite bind_result. destruct rerank; [|done].
  by rewrite try_except_result, rerank_async_result.
Qed.

(** ** When the rerank call fails (C2) *)

Lemma codebase_of_nonempty documents : documents ≠ [] → codebase_of documents ≠ [].
Proof. by destruct documents. Qed.



Lemma rerank_outcome_success w top_n token_limit query documents results :
  documents ≠ [] →
  (rank_code_files w query (codebase_of documents) token_limit).2 = Ok results →
  rerank_outcome w top_n token_limit query documents
  = truncate_pos top_n (sort_desc reranking_score (matched_docs documents results)).
Proof. intros Hne Hr. unfold rerank_outcome. rewrite Hr. by destruct documents. Qed.








(** ** Counting and telling apart what is returned *)

Lemma omap_cons {A B} (f : A → option B) (x : A) (l : list A) :
  omap f (x :: l) = match f x with Some y => y :: omap f l | None => omap f l end.
Proof. done. Qed.

Lemma omap_item_ref (f2d : gmap string nat) (results : list RankItem) :
  omap (item_ref f2d) results = omap (λ f, f2d !! f) (omap item_filename results).
Proof.
  induction results as [|item results IH]; [done|].
  destruct item as [[f|] [sc|]|]; try exact IH.
  rewrite (omap_cons item_filename). cbn [item_filename].
  rewrite !omap_cons. cbn [item_ref]. by rewrite IH.
Qed.


Lemma NoDup_omap_inj {A B} (f : A → option B) (l : list A) :
  NoDup l →
  (∀ x y z, x ∈ l → y ∈ l → f x = Some z → f y = Some z → x = y) →
  NoDup (omap f l).
Proof.
  induction 1 as [|x l Hx Hl IH]; intros Hinj; [constructor|].
  assert (NoDup (omap f l)) as Hnd.
  { apply IH. intros ??? ??. apply Hinj; by right. }
  rewrite omap_cons.
  destruct (f x) as [z|] eqn:Hz; [|done].
  constructor; [|done]. rewrite list_elem_of_omap. intros (y & Hy & Hfy).
  apply Hx. rewrite (Hinj x y z); [done|by left|by right|done..].
Qed.

Lemma match_results_refs_NoDup documents results :
  NoDup (omap item_filename results) → NoDup (match_results documents results).2.
Proof.
  intros Hnd. rewrite match_results_refs, omap_item_ref.
  apply NoDup_omap_inj; [done|]. intros f f' i _ _ Hf Hf'.
  apply filename_to_doc_spec in Hf, Hf'. by eapply last_named_inj.
Qed.

Lemma match_results_refs_lt documents results i :
  i ∈ (match_results documents results).2 → (i < length documents)%nat.
Proof.
  rewrite match_results_refs, list_elem_of_omap. intros (item & _ & Hi).
  destruct item as [[f|] [sc|]|]; try done. simpl in Hi.
  apply filename_to_doc_spec in Hi as [(d & Hd & _) _]. by eapply lookup_lt_Some.
Qed.

Lemma length_matched_docs documents results :
  length (matched_docs documents results) = length (match_results documents results).2.
Proof.
  rewrite <-deref_match_results. apply deref_length, match_results_valid.
Qed.


Lemma length_matched_docs_le_documents documents results :
  NoDup (omap item_filename results) →
  (length (matched_docs documents results) ≤ length documents)%nat.
Proof.
  intros Hnd. rewrite length_matched_docs.
  assert ((match_results documents results).2 ⊆+ seq 0 (length documents)) as Hsub.
  { apply NoDup_submseteq; [by apply match_results_refs_NoDup|].
    intros i Hi%match_results_refs_lt. apply elem_of_seq. lia. }
  apply submseteq_length in Hsub. by rewrite length_seq in Hsub.
Qed.



Lemma NoDup_ids_deref documents store refs :
  (∀ i, id <$> store !! i = id <$> documents !! i) →
  NoDup (id <$> documents) →
  NoDup refs →
  NoDup (id <$> deref store refs).
Proof.
  intros Hid Hdocs. induction 1 as [|i refs Hi Hrefs IH]; [constructor|].
  unfold deref in *. rewrite omap_cons.
  destruct (store !! i) as [d|] eqn:Hd; [|done].
  rewrite fmap_cons.
  constructor; [|done]. rewrite list_elem_of_fmap. intros (d' & Hidd & Hd').
  apply list_elem_of_omap in Hd' as (j & Hj & Hdj).
  apply Hi. replace i with j; [done|].
  apply (NoDup_lookup (id <$> documents) j i (id d)); [done|..].
  - rewrite list_lookup_fmap, <-Hid, Hdj. simpl. by rewrite Hidd.
  - by rewrite list_lookup_fmap, <-Hid, Hd.
Qed.

Lemma match_results_store_id documents results i :
  id <$> (match_results documents results).1 !! i = id <$> documents !! i.
Proof.
  rewrite match_results_store. destruct (documents !! i) as [d|]; [|done]. simpl.
  by destruct (assigned _ _ _).
Qed.

Lemma NoDup_ids_matched_docs documents results :
  NoDup (id <$> documents) →
  NoDup (omap item_filename results) →
  NoDup (id <$> matched_docs documents results).
Proof.
  intros Hdocs Hres. rewrite <-deref_match_results.
  apply (NoDup_ids_deref documents); [apply match_results_store_id|done|].
  by apply match_results_refs_NoDup.
Qed.

Lemma NoDup_ids_truncate_pos top_n (l : list Document) :
  NoDup (id <$> l) → NoDup (id <$> truncate_pos top_n l).
Proof.
  intros Hl. destruct top_n as [n|]; simpl; [|done].
  destruct (0 <? n); [|done]. rewrite fmap_take.
  eapply sublist_NoDup; [exact Hl|apply sublist_take].
Qed.

Lemma format_doc_ids (l : list Document) : f_id <$> (format_doc <$> l) = id <$> l.
Proof. rewrite <-list_fmap_compose. by apply list_fmap_ext. Qed.

(** What is returned when the retrieval succeeds *)
Lemma retriever_outcome_Some w query namespace rerank top_k kw found out :
  vector_db_search w query (default 5 kw) (search_namespace namespace)
    = Ok (RespList found) →
  (retriever w query namespace rerank top_k kw).2 = Ok (Some out) →
  out = format_doc <$>
          (if rerank
           then rerank_outcome w (Some (reranker_top_n top_k (default 5 kw)))
                  default_token_limit query (normalize namespace <$> found)
           else normalize namespace <$> found).
Proof.
  intros Hs. rewrite retriever_result. unfold retriever_outcome. rewrite Hs.
  destruct (negb (str_truthy (getenv w "PINECONE_API_KEY"))); [done|].
  destruct (negb (str_truthy (getenv w "RELACE_API_KEY"))); [done|].
  destruct found as [|r rs].
  - intros [= <-]. by destruct rerank.
  - by intros [= <-].
Qed.

(** ** The length of the result (C4) *)





(** ** Identifiers in one result (C7) *)

(** C7, as the code has it.  Nothing in the retriever removes duplicates: the
    identifiers of the returned documents are pairwise distinct provided the
    search returned pairwise distinct identifiers and the rerank response, if
    one is used, scores no file name twice. *)
Theorem returned_ids_unique w query namespace rerank top_k kw found out :
  vector_db_search w query (default 5 kw) (search_namespace namespace)
    = Ok (RespList found) →
  NoDup (id <$> (normalize namespace <$> found)) →
  (∀ results,
     (rank_code_files w query (codebase_of (normalize namespace <$> found))
        default_token_limit).2 = Ok results →
     NoDup (omap item_filename results)) →
  (retriever w query namespace rerank top_k kw).2 = Ok (Some out) →
  NoDup (f_id <$> out).
Proof.
  intros Hs Hids Hres Hout.
  pose proof (retriever_outcome_Some _ _ _ _ _ _ _ _ Hs Hout) as ->.
  rewrite format_doc_ids. destruct rerank; [|done].
  unfold rerank_outcome.
  destruct (normalize namespace <$> found) as [|d ds] eqn:Hdocs; [constructor|].
  rewrite <-Hdocs in *.
  destruct (rank_code_files _ _ _ _).2 as [results|e] eqn:Hr; [|done].
  apply NoDup_ids_truncate_pos.
  rewrite sort_desc_perm. apply NoDup_ids_matched_docs; [done|]. by apply Hres.
Qed.

Lemma returned_ids_unique_witness :
  vector_db_search (ex_rerank_up ex_found_abc ex_results_abc) "q" (default 5 None)
    (search_namespace None) = Ok (RespList ex_found_abc) ∧
  NoDup (id <$> (normalize None <$> ex_found_abc)) ∧
  (∀ results,
     (rank_code_files (ex_rerank_up ex_found_abc ex_results_abc) "q"
        (codebase_of (normalize None <$> ex_found_abc)) default_token_limit).2 = Ok results →
     NoDup (omap item_filename results)) ∧
  (retriever (ex_rerank_up ex_found_abc ex_results_abc) "q" None true None None).2
    = Ok (Some [format_doc (set_reranking_score (Some (3#4)) (normalize None (ex_match "3" "c.py" (1#4))));
                format_doc (set_reranking_score (Some (1#2)) (normalize None (ex_match "1" "a.py" (9#10))))]) ∧
  NoDup [Some "3"; Some "1"].
Proof.
  assert (NoDup (id <$> (normalize None <$> ex_found_abc))) as Hids.
  { apply (bool_decide_unpack _). vm_compute. exact I. }
  assert (∀ results,
     (rank_code_files (ex_rerank_up ex_found_abc ex_results_abc) "q"
        (codebase_of (normalize None <$> ex_found_abc)) default_token_limit).2 = Ok results →
     NoDup (omap item_filename results)) as Hres.
  { intros results [= <-]. apply (bool_decide_unpack _). vm_compute. exact I. }
  split; [reflexivity|]. split; [exact Hids|]. split; [exact Hres|].
  split; [reflexivity|].
  exact (returned_ids_unique (ex_rerank_up ex_found_abc ex_results_abc)
           "q" None true None None ex_found_abc _ eq_refl Hids Hres eq_refl).
Defined.

(** C7 as worded fails: when two search results share a name and the response
    scores that name twice, the second document is returned twice. *)
Lemma repeated_filename_repeats_document :
  NoDup (id <$> (normalize None <$> ex_found_same_name)) ∧
  ∃ out,
    (retriever (ex_rerank_up ex_found_same_name ex_results_aa) "q" None true None None).2
      = Ok (Some out) ∧
    f_id <$> out = [Some "2"; Some "2"] ∧
    ¬ NoDup (f_id <$> out).
Proof.
  split.
  { apply (bool_decide_unpack _). vm_compute. exact I. }
  eexists. split; [vm_compute; reflexivity|]. split; [reflexivity|].
  intros Hnd. apply NoDup_cons in Hnd as [Hin _]. apply Hin. left.
Qed.

(** * Further properties of the code *)

(** ** The rerank client *)

Lemma validate_items_run items :
  validate_items items
  = (replicate (length (List.filter (λ i, negb (item_valid i)) items))
       (Warning SkippingInvalidItem),
     Ok (List.filter item_valid items)).
Proof.
  induction items as [|item items IH]; [done|]. simpl.
  destruct (item_valid item); simpl.
  - rewrite IH. unfold mbind, M_bind. simpl. by rewrite app_nil_r.
  - by rewrite IH.
Qed.

(** The client accepts the list of pairs bare or under ["results"], and
    treats both alike: after the one request it returns the items that have
    both fields, in the order of the response, and logs one warning for each
    item it skips. *)
Theorem rank_code_files_accepts_both_shapes w query codebase token_limit items body :
  codebase ≠ [] →
  body = BodyDict (Some (ResultsList items)) ∨ body = BodyList items →
  rerank_service w query codebase token_limit = HttpResponse 200 body →
  rank_code_files w query codebase token_limit
  = (Net (RerankPost query codebase token_limit)
       :: replicate (length (List.filter (λ i, negb (item_valid i)) items))
            (Warning SkippingInvalidItem),
     Ok (List.filter item_valid items)).
Proof.
  intros Hne Hbody Hs. unfold rank_code_files.
  destruct codebase as [|c cs]; [done|]. rewrite Hs.
  destruct Hbody as [-> | ->]; simpl; by rewrite validate_items_run.
Qed.

Lemma rank_code_files_accepts_both_shapes_witness :
  codebase_of ex_three ≠ [] ∧
  (BodyList ex_invalid_items = BodyDict (Some (ResultsList ex_invalid_items)) ∨
   BodyList ex_invalid_items = BodyList ex_invalid_items) ∧
  rerank_service (ex_rerank_world ex_invalid_items) "q" (codebase_of ex_three) 150000
    = HttpResponse 200 (BodyList ex_invalid_items) ∧
  rank_code_files (ex_rerank_world ex_invalid_items) "q" (codebase_of ex_three) 150000
  = ([Net (RerankPost "q" (codebase_of ex_three) 150000);
      Warning SkippingInvalidItem; Warning SkippingInvalidItem],
     Ok [ex_pair "b.py" (1#2); ex_pair "a.py" (9#10)]).
Proof.
  split; [discriminate|]. split; [right; reflexivity|]. split; [reflexivity|].
  apply (rank_code_files_accepts_both_shapes (ex_rerank_world ex_invalid_items)
           "q" (codebase_of ex_three) 150000 ex_invalid_items (BodyList ex_invalid_items));
    [discriminate|right; reflexivity|reflexivity].
Defined.

(** A 200 response of any other shape (not a list, an object without
    ["results"], or with a ["results"] that is not a list) is not an error
    for the client: it logs one error line and returns the empty list. *)
Theorem rank_code_files_unexpected_shape w query codebase token_limit body :
  codebase ≠ [] →
  rerank_service w query codebase token_limit = HttpResponse 200 body →
  unexpected_body body = true →
  (rank_code_files w query codebase token_limit).2 = Ok [] ∧
  ∃ m, (rank_code_files w query codebase token_limit).1
       = [Net (RerankPost query codebase token_limit); Error m].
Proof.
  intros Hne Hs Hbody. unfold rank_code_files.
  destruct codebase as [|c cs]; [done|]. rewrite Hs.
  destruct body as [[[items|]|]|items|]; try done; simpl; eauto.
Qed.

Lemma rank_code_files_unexpected_shape_witness :
  codebase_of ex_three ≠ [] ∧
  rerank_service (ex_world (Ok RespOther) (HttpResponse 200 (BodyDict None))) "q"
    (codebase_of ex_three) 150000 = HttpResponse 200 (BodyDict None) ∧
  unexpected_body (BodyDict None) = true ∧
  (rank_code_files (ex_world (Ok RespOther) (HttpResponse 200 (BodyDict None))) "q"
     (codebase_of ex_three) 150000).2 = Ok [] ∧
  ∃ m, (rank_code_files (ex_world (Ok RespOther) (HttpResponse 200 (BodyDict None))) "q"
          (codebase_of ex_three) 150000).1
       = [Net (RerankPost "q" (codebase_of ex_three) 150000); Error m].
Proof.
  split; [discriminate|]. split; [reflexivity|]. split; [reflexivity|].
  apply (rank_code_files_unexpected_shape
           (ex_world (Ok RespOther) (HttpResponse 200 (BodyDict None)))
           "q" (codebase_of ex_three) 150000 (BodyDict None));
    [discriminate|reflexivity|reflexivity].
Defined.

(** For a codebase that is not empty the client raises exactly when the
    exchange failed (the call raised, or the status is not 200); a status
    other than 200 gives [RelaceApiError] with that status (so 201 or 204 are
    errors too), and the last line logged before raising is the client's
    error line. *)
Theorem rank_code_files_raises_iff_failed w query codebase token_limit :
  codebase ≠ [] →
  ((∃ e, (rank_code_files w query codebase token_limit).2 = Raise e) ↔
   reply_failed (rerank_service w query codebase token_limit) = true) ∧
  (∀ status body,
     rerank_service w query codebase token_limit = HttpResponse status body →
     status ≠ 200 →
     (rank_code_files w query codebase token_limit).2 = Raise (RelaceApiError status)) ∧
  (∀ e, (rank_code_files w query codebase token_limit).2 = Raise e →
     last (rank_code_files w query codebase token_limit).1
     = Some (Error FailedToRankCodeFiles)).
Proof.
  intros Hne. unfold rank_code_files. destruct codebase as [|c cs]; [done|].
  destruct (rerank_service w query (c :: cs) token_limit) as [|status body] eqn:Hs.
  { simpl. split; [split; eauto|]. split; [done|]. done. }
  destruct (Z.eqb_spec status 200) as [->|Hst].
  - destruct body as [[[items|]|]|items|]; simpl; rewrite ?validate_items_run; simpl;
      (split; [split; [by intros [e ?]|done]|]; split; [by intros ?? [= <- <-]|done]).
  - simpl. split; [split; [intros _; by apply negb_true_iff, Z.eqb_neq|eauto]|].
    split; [by intros ?? [= <- <-]|done].
Qed.

Lemma rank_code_files_raises_iff_failed_witness :
  codebase_of ex_three ≠ [] ∧
  ((∃ e, (rank_code_files (ex_world (Ok RespOther) (HttpResponse 201 BodyOther)) "q"
            (codebase_of ex_three) 150000).2 = Raise e) ↔
   reply_failed (rerank_service (ex_world (Ok RespOther) (HttpResponse 201 BodyOther)) "q"
                   (codebase_of ex_three) 150000) = true) ∧
  (∀ status body,
     rerank_service (ex_world (Ok RespOther) (HttpResponse 201 BodyOther)) "q"
       (codebase_of ex_three) 150000 = HttpResponse status body →
     status ≠ 200 →
     (rank_code_files (ex_world (Ok RespOther) (HttpResponse 201 BodyOther)) "q"
        (codebase_of ex_three) 150000).2 = Raise (RelaceApiError status)) ∧
  (∀ e, (rank_code_files (ex_world (Ok RespOther) (HttpResponse 201 BodyOther)) "q"
           (codebase_of ex_three) 150000).2 = Raise e →
     last (rank_code_files (ex_world (Ok RespOther) (HttpResponse 201 BodyOther)) "q"
             (codebase_of ex_three) 150000).1
     = Some (Error FailedToRankCodeFiles)).
Proof.
  split; [discriminate|].
  apply (rank_code_files_raises_iff_failed
           (ex_world (Ok RespOther) (HttpResponse 201 BodyOther))
           "q" (codebase_of ex_three) 150000).
  discriminate.
Defined.

Lemma net_calls_app t1 t2 : net_calls (t1 ++ t2) = net_calls t1 ++ net_calls t2.
Proof. apply List.filter_app. Qed.

Lemma net_calls_bind {A B} (m : M A) (f : A → M B) :
  net_calls (m ≫= f).1
  = net_calls m.1 ++ match m.2 with Ok a => net_calls (f a).1 | Raise _ => [] end.
Proof. rewrite bind_trace, net_calls_app. by destruct m.2. Qed.

Lemma net_calls_try_except {A} (m : M A) h :
  net_calls (try_except m h).1
  = net_calls m.1 ++ match m.2 with Ok _ => [] | Raise e => net_calls (h e).1 end.
Proof.
  unfold try_except. destruct m as [t [a|e]]; simpl.
  - by rewrite app_nil_r.
  - by rewrite net_calls_app.
Qed.

Lemma net_calls_warnings k m : net_calls (replicate k (Warning m)) = [].
Proof. induction k as [|k IH]; [done|exact IH]. Qed.

Lemma forallb_filter {A} (p : A → bool) (l : list A) :
  forallb p (List.filter p l) = true.
Proof.
  induction l as [|x l IH]; [done|]. simpl.
  destruct (p x) eqn:Hx; [|done]. simpl. by rewrite Hx, IH.
Qed.

(** Whatever the service answers, the client sends at most one request, none
    for an empty codebase and otherwise one that carries the query, the
    codebase and the token limit as given; and every item it returns has both
    a file name and a score. *)
Theorem rank_code_files_one_request_valid_items w query codebase token_limit :
  net_calls (rank_code_files w query codebase token_limit).1
  = match codebase with
    | [] => []
    | _ => [Net (RerankPost query codebase token_limit)]
    end ∧
  match (rank_code_files w query codebase token_limit).2 with
  | Ok results => forallb item_valid results = true
  | Raise _ => True
  end.
Proof.
  unfold rank_code_files. destruct codebase as [|c cs]; [done|].
  destruct (rerank_service w query (c :: cs) token_limit) as [|status body]; [done|].
  destruct (status =? 200); [|done].
  destruct body as [[[items|]|]|items|]; simpl; rewrite ?validate_items_run; simpl;
    rewrite ?net_calls_warnings, ?forallb_filter; done.
Qed.

(** ** The reranker *)

Lemma rerank_sync_result w top_n token_limit query documents :
  (_rerank w top_n token_limit query documents).2
  = Ok (rerank_outcome w top_n token_limit query documents).
Proof.
  unfold rerank_outcome.
  destruct (rank_code_files w query (codebase_of documents) token_limit).2
    as [results|e] eqn:Hr.
  - rewrite (rerank_sync_success _ _ _ _ _ _ Hr).
    destruct documents as [|d ds]; [|done].
    injection Hr as <-. by destruct top_n as [n|]; simpl; [destruct (0 <? n), (Z.to_nat n)|].
  - destruct documents as [|d ds]; [done|].
    unfold _rerank, rank_code_files_sync. rewrite (bind_raise _ _ _ Hr).
    by rewrite (try_except_raise _ _ e).
Qed.

(** The reranker never raises: whatever the exchange with the service gives
    -- [w_async] as the [aiohttp] session delivers it, [w_sync] as [requests]
    does -- each of the four entry points ends normally, and a public method
    returns the list its private method returns: [rerank_async] that of
    [_rerank_async], [rerank] that of [_rerank]. *)
Theorem reranker_never_raises w_async w_sync top_n token_limit query documents :
  (∃ out,
     (_rerank_async w_async top_n token_limit query documents).2 = Ok out ∧
     (rerank_async w_async top_n token_limit query documents).2 = Ok out) ∧
  (∃ out,
     (_rerank w_sync top_n token_limit query documents).2 = Ok out ∧
     (rerank w_sync top_n token_limit query documents).2 = Ok out).
Proof.
  split.
  - exists (rerank_outcome w_async top_n token_limit query documents).
    split; [apply _rerank_async_result|apply rerank_async_result].
  - exists (rerank_outcome w_sync top_n token_limit query documents).
    split; [apply rerank_sync_result|].
    unfold rerank. by rewrite try_except_result, rerank_sync_result.
Qed.

Lemma elem_of_truncate_pos {A} top_n (l : list A) x :
  x ∈ truncate_pos top_n l → x ∈ l.
Proof.
  destruct top_n as [n|]; simpl; [|done].
  destruct (0 <? n); [|done]. intros Hx. eapply elem_of_sublist; [exact Hx|apply sublist_take].
Qed.

(** The reranker fabricates nothing: every document it returns, after a
    success or after a failure, is one of the documents it was given, with at
    most its score changed. *)
Theorem reranker_returns_input_documents w top_n token_limit query documents out d :
  (rerank_async w top_n token_limit query documents).2 = Ok out →
  d ∈ out →
  ∃ d0, d0 ∈ documents ∧ same_document d0 d.
Proof.
  rewrite rerank_async_result. intros [= <-]. unfold rerank_outcome.
  destruct documents as [|d1 ds] eqn:Hdocs; [by intros ?%elem_of_nil|].
  rewrite <-Hdocs.
  destruct (rank_code_files _ _ _ _).2 as [results|e].
  - intros Hd%elem_of_truncate_pos. rewrite sort_desc_perm in Hd.
    apply elem_of_matched_docs in Hd as (i & d0 & score & Hd0 & _ & _ & ->).
    exists d0. split; [by eapply list_elem_of_lookup_2|done].
  - intros Hd. by exists d.
Qed.

Lemma reranker_returns_input_documents_witness :
  (rerank_async (ex_rerank_world ex_results_ba) (Some 1) 150000 "q" ex_three).2
    = Ok [set_reranking_score (Some (9#10)) (ex_doc "1" "a.py")] ∧
  set_reranking_score (Some (9#10)) (ex_doc "1" "a.py")
    ∈ [set_reranking_score (Some (9#10)) (ex_doc "1" "a.py")] ∧
  ∃ d0, d0 ∈ ex_three ∧
        same_document d0 (set_reranking_score (Some (9#10)) (ex_doc "1" "a.py")).
Proof.
  split; [reflexivity|]. split; [left|].
  apply (reranker_returns_input_documents (ex_rerank_world ex_results_ba) (Some 1)
           150000 "q" ex_three
           [set_reranking_score (Some (9#10)) (ex_doc "1" "a.py")]
           (set_reranking_score (Some (9#10)) (ex_doc "1" "a.py")));
    [reflexivity|left].
Defined.

Lemma filename_of_nonempty i d : filename_of i d ≠ "".
Proof.
  unfold filename_of, str_or. destruct (name d) as [s|]; [|done].
  by destruct (String.eqb_spec s "").
Qed.

Lemma filename_to_doc_keys documents f :
  is_Some (filename_to_doc documents !! f) ↔ f ∈ cf_filename <$> codebase_of documents.
Proof.
  unfold codebase_of. rewrite list_elem_of_fmap. split.
  - intros [i Hi]. apply filename_to_doc_spec in Hi as [(d & Hd & <-) _].
    eexists. split; [|by apply elem_of_lookup_imap_2]. done.
  - intros (cf & -> & Hcf). apply elem_of_lookup_imap_1 in Hcf as (i & d & -> & Hd).
    by apply filename_to_doc_is_Some.
Qed.

(** The request has one file per document, none with an empty name, and the
    names sent are exactly the keys under which the response is looked up: a
    pair of the response is matched if and only if it names a file that was
    sent. *)
Theorem sent_filenames_are_the_keys documents :
  length (codebase_of documents) = length documents ∧
  Forall (λ cf, cf_filename cf ≠ "") (codebase_of documents) ∧
  ∀ f, is_Some (filename_to_doc documents !! f) ↔ f ∈ cf_filename <$> codebase_of documents.
Proof.
  split; [apply length_imap|]. split; [|apply filename_to_doc_keys].
  apply Forall_forall. intros cf Hcf.
  apply elem_of_lookup_imap_1 in Hcf as (i & d & -> & _). apply filename_of_nonempty.
Qed.

Lemma item_ref_pair_matches documents item :
  is_Some (item_ref (filename_to_doc documents) item) ↔ pair_matches documents item = true.
Proof.
  unfold pair_matches. destruct item as [[f|] [sc|]|]; simpl;
    try (split; [by intros [? ?]|done]).
  rewrite filename_to_doc_keys. by rewrite bool_decide_eq_true.
Qed.

Lemma length_matched_docs_filter documents results :
  length (matched_docs documents results)
  = length (List.filter (pair_matches documents) results).
Proof.
  rewrite length_matched_docs, match_results_refs.
  induction results as [|item results IH]; [done|].
  rewrite omap_cons. simpl.
  pose proof (item_ref_pair_matches documents item) as Hm.
  destruct (item_ref (filename_to_doc documents) item) as [i|].
  - rewrite (proj1 Hm) by eauto. simpl. by rewrite IH.
  - destruct (pair_matches documents item); [|done].
    by destruct (proj2 Hm eq_refl).
Qed.

(** With a positive [top_n] and a successful call the reranker returns as
    many documents as the smaller of [top_n] and the number of pairs of the
    response that name a file that was sent. *)
Theorem rerank_length_is_min w n token_limit query documents results :
  documents ≠ [] →
  (rank_code_files w query (codebase_of documents) token_limit).2 = Ok results →
  0 < n →
  ∃ out,
    (_rerank_async w (Some n) token_limit query documents).2 = Ok out ∧
    length out
    = Nat.min (Z.to_nat n) (length (List.filter (pair_matches documents) results)).
Proof.
  intros Hne Hr Hn. eexists. split; [by apply rerank_async_success|].
  simpl. destruct (Z.ltb_spec 0 n); [|lia].
  by rewrite length_take, sort_desc_length, length_matched_docs_filter.
Qed.

Lemma rerank_length_is_min_witness :
  ex_three ≠ [] ∧
  (rank_code_files (ex_rerank_world ex_results_ba) "q" (codebase_of ex_three) 150000).2
    = Ok ex_results_ba ∧
  0 < 5 ∧
  ∃ out,
    (_rerank_async (ex_rerank_world ex_results_ba) (Some 5) 150000 "q" ex_three).2 = Ok out ∧
    length out
    = Nat.min (Z.to_nat 5) (length (List.filter (pair_matches ex_three) ex_results_ba)).
Proof.
  split; [discriminate|]. split; [reflexivity|]. split; [lia|].
  apply (rerank_length_is_min (ex_rerank_world ex_results_ba) 5 150000 "q"
           ex_three ex_results_ba); [discriminate|reflexivity|lia].
Defined.

Lemma rank_code_files_unexpected_result w query codebase token_limit body :
  codebase ≠ [] →
  rerank_service w query codebase token_limit = HttpResponse 200 body →
  unexpected_body body = true →
  (rank_code_files w query codebase token_limit).2 = Ok [].
Proof.
  intros Hne Hs Hbody. unfold rank_code_files.
  destruct codebase as [|c cs]; [done|]. rewrite Hs.
  by destruct body as [[[items|]|]|items|].
Qed.

Lemma truncate_pos_nil {A} top_n : truncate_pos top_n (@nil A) = [].
Proof.
  destruct top_n as [n|]; [|done]. simpl.
  destruct (0 <? n); [|done]. by destruct (Z.to_nat n).
Qed.

(** The fallback to the search results covers raised errors only.  When the
    rerank service answers 200 with a body of an unexpected shape, the
    retriever returns the empty list although the search found documents. *)
Theorem malformed_rerank_body_discards_results w query namespace top_k kw r rs body :
  str_truthy (getenv w "PINECONE_API_KEY") = true →
  str_truthy (getenv w "RELACE_API_KEY") = true →
  vector_db_search w query (default 5 kw) (search_namespace namespace)
    = Ok (RespList (r :: rs)) →
  rerank_service w query (codebase_of (normalize namespace <$> (r :: rs)))
    default_token_limit = HttpResponse 200 body →
  unexpected_body body = true →
  (retriever w query namespace true top_k kw).2 = Ok (Some []).
Proof.
  intros Hp Hr Hs Hreply Hbody.
  rewrite retriever_result. unfold retriever_outcome. rewrite Hp, Hr, Hs. simpl negb.
  cbv iota beta zeta.
  assert (normalize namespace <$> (r :: rs) ≠ []) as Hne by (intros H; inversion H).
  rewrite (rerank_outcome_success _ _ _ _ _ [] Hne).
  - change (matched_docs (normalize namespace <$> r :: rs) []) with (@nil Document).
    change (sort_desc reranking_score []) with (@nil Document).
    by rewrite truncate_pos_nil.
  - apply (rank_code_files_unexpected_result _ _ _ _ body);
      [by apply codebase_of_nonempty|done..].
Qed.

Lemma malformed_rerank_body_discards_results_witness :
  str_truthy (getenv (ex_world (Ok (RespList ex_found_ab)) (HttpResponse 200 BodyOther))
                "PINECONE_API_KEY") = true ∧
  str_truthy (getenv (ex_world (Ok (RespList ex_found_ab)) (HttpResponse 200 BodyOther))
                "RELACE_API_KEY") = true ∧
  vector_db_search (ex_world (Ok (RespList ex_found_ab)) (HttpResponse 200 BodyOther))
    "q" (default 5 None) (search_namespace None) = Ok (RespList ex_found_ab) ∧
  rerank_service (ex_world (Ok (RespList ex_found_ab)) (HttpResponse 200 BodyOther)) "q"
    (codebase_of (normalize None <$> ex_found_ab)) default_token_limit
    = HttpResponse 200 BodyOther ∧
  unexpected_body BodyOther = true ∧
  (retriever (ex_world (Ok (RespList ex_found_ab)) (HttpResponse 200 BodyOther))
     "q" None true None None).2 = Ok (Some []).
Proof.
  split; [reflexivity|]. split; [reflexivity|]. split; [reflexivity|].
  split; [reflexivity|]. split; [reflexivity|].
  apply (malformed_rerank_body_discards_results
           (ex_world (Ok (RespList ex_found_ab)) (HttpResponse 200 BodyOther))
           "q" None None None (ex_match "1" "a.py" (9#10)) [ex_match "2" "b.py" (1#2)]
           BodyOther); reflexivity.
Defined.

(** ** The embedder *)

(** [get_embedding] never raises, and it sends exactly one request, for the
    one text. *)
Theorem get_embedding_never_raises w text :
  (∃ v, (get_embedding w text).2 = Ok v) ∧
  net_calls (get_embedding w text).1 = [Net (EmbedPost [text])].
Proof.
  unfold get_embedding, generate_embeddings_sync.
  destruct (embed_service w [text]) as [|status [results data]]; simpl; [eauto|].
  destruct (status =? 200); simpl; [|eauto].
  destruct results as [[|[e|] rs]|], data as [[|[e'|] ds]|]; simpl; eauto.
Qed.

(** On a 200 response [get_embedding] returns the first vector under
    ["results"] when that list is not empty, whatever ["data"] holds; when
    ["results"] is absent or empty it returns the first vector under
    ["data"]. *)
Theorem get_embedding_reads_results_then_data w text body e rest :
  embed_service w [text] = HttpResponse 200 body →
  eb_results body = Some (Some e :: rest) ∨
  ((eb_results body = None ∨ eb_results body = Some []) ∧
   eb_data body = Some (Some e :: rest)) →
  (get_embedding w text).2 = Ok e.
Proof.
  intros Hs Hbody. unfold get_embedding, generate_embeddings_sync. rewrite Hs.
  destruct body as [results data]. simpl in Hbody.
  destruct Hbody as [-> | [[-> | ->] ->]]; done.
Qed.

Lemma get_embedding_reads_results_then_data_witness :
  embed_service (ex_embed_world 200 (mkEmbedBody (Some []) (Some [Some [1#2; 1#3]])) None)
    ["q"] = HttpResponse 200 (mkEmbedBody (Some []) (Some [Some [1#2; 1#3]])) ∧
  (eb_results (mkEmbedBody (Some []) (Some [Some [1#2; 1#3]])) = Some [Some [1#2; 1#3]] ∨
   ((eb_results (mkEmbedBody (Some []) (Some [Some [1#2; 1#3]])) = None ∨
     eb_results (mkEmbedBody (Some []) (Some [Some [1#2; 1#3]])) = Some []) ∧
    eb_data (mkEmbedBody (Some []) (Some [Some [1#2; 1#3]])) = Some [Some [1#2; 1#3]])) ∧
  (get_embedding
     (ex_embed_world 200 (mkEmbedBody (Some []) (Some [Some [1#2; 1#3]])) None) "q").2
    = Ok [1#2; 1#3].
Proof.
  split; [reflexivity|]. split; [right; split; [right|]; reflexivity|].
  apply (get_embedding_reads_results_then_data
           (ex_embed_world 200 (mkEmbedBody (Some []) (Some [Some [1#2; 1#3]])) None)
           "q" (mkEmbedBody (Some []) (Some [Some [1#2; 1#3]])) [1#2; 1#3] []);
    [reflexivity|right; split; [right|]; reflexivity].
Defined.

(** Every failure of the embedding call ends in the empty vector: a call
    that raises, a status other than 200, or a first item without an
    ["embedding"]. *)
Theorem get_embedding_empty_on_failure w text :
  reply_failed (embed_service w [text]) = true ∨
  (∃ body rest, embed_service w [text] = HttpResponse 200 body ∧
                eb_results body = Some (None :: rest)) →
  (get_embedding w text).2 = Ok [].
Proof.
  unfold get_embedding, generate_embeddings_sync.
  intros [Hf | (body & rest & Hs & Hr)].
  - destruct (embed_service w [text]) as [|status body]; [done|]. simpl in Hf.
    apply negb_true_iff in Hf. by rewrite Hf.
  - rewrite Hs. destruct body as [results data]. simpl in Hr. by subst results.
Qed.

Lemma get_embedding_empty_on_failure_witness :
  (reply_failed (embed_service (ex_embed_world 503 (mkEmbedBody None None) None) ["q"])
     = true ∨
   (∃ body rest,
      embed_service (ex_embed_world 503 (mkEmbedBody None None) None) ["q"]
        = HttpResponse 200 body ∧
      eb_results body = Some (None :: rest))) ∧
  (get_embedding (ex_embed_world 503 (mkEmbedBody None None) None) "q").2 = Ok [].
Proof.
  split; [left; reflexivity|].
  apply (get_embedding_empty_on_failure
           (ex_embed_world 503 (mkEmbedBody None None) None) "q").
  left; reflexivity.
Defined.

(** ** The retriever *)

Lemma rank_code_files_net_calls w query codebase token_limit :
  net_calls (rank_code_files w query codebase token_limit).1
  = match codebase with
    | [] => []
    | _ => [Net (RerankPost query codebase token_limit)]
    end.
Proof.
  unfold rank_code_files. destruct codebase as [|c cs]; [done|].
  destruct (rerank_service w query (c :: cs) token_limit) as [|status body]; [done|].
  destruct (status =? 200); [|done].
  destruct body as [[[items|]|]|items|]; simpl; rewrite ?validate_items_run; simpl;
    rewrite ?net_calls_warnings; done.
Qed.

Lemma checked_top_n_net_calls top_n : net_calls (checked_top_n top_n).1 = [].
Proof.
  destruct top_n as [n|]; [|done]. simpl.
  by destruct (negb (n =? 0) && negb (0 <? n)).
Qed.

Lemma rerank_async_net_calls w top_n token_limit query documents :
  net_calls (rerank_async w top_n token_limit query documents).1
  = match documents with
    | [] => []
    | _ => [Net (RerankPost query (codebase_of documents) token_limit)]
    end.
Proof.
  unfold rerank_async. rewrite net_calls_try_except, _rerank_async_result, app_nil_r.
  unfold _rerank_async. destruct documents as [|d ds]; [done|].
  rewrite net_calls_bind, checked_top_n_net_calls, checked_top_n_result. simpl app.
  unfold rerank_try. rewrite net_calls_try_except, net_calls_bind.
  rewrite rank_code_files_net_calls.
  simpl. by repeat case_match.
Qed.

Lemma net_calls_try_except_quiet {A} (m : M A) h :
  (∀ e, net_calls (h e).1 = []) → net_calls (try_except m h).1 = net_calls m.1.
Proof.
  intros Hh. rewrite net_calls_try_except.
  destruct m.2; by rewrite ?Hh, app_nil_r.
Qed.

(** The calls the retriever itself makes to the outside, in every run: none
    (a key is missing), one call of [vector_db.search], or that call followed
    by one rerank request.  The rerank request is sent only when reranking
    was asked for and the search found something, and it carries the files of
    the normalized search results under the default token limit.  What
    [vector_db.search] does inside, the embedding request of the embedder
    included, belongs to that call and is not counted here. *)
Theorem retriever_calls_search_then_rerank w query namespace rerank top_k kw :
  net_calls (retriever w query namespace rerank top_k kw).1 = [] ∨
  net_calls (retriever w query namespace rerank top_k kw).1
    = [Net (VectorSearch query (default 5 kw) (search_namespace namespace))] ∨
  (rerank = true ∧
   ∃ found,
     found ≠ [] ∧
     vector_db_search w query (default 5 kw) (search_namespace namespace)
       = Ok (RespList found) ∧
     net_calls (retriever w query namespace rerank top_k kw).1
       = [Net (VectorSearch query (default 5 kw) (search_namespace namespace));
          Net (RerankPost query (codebase_of (normalize namespace <$> found))
                 default_token_limit)]).
Proof.
  unfold retriever. rewrite net_calls_try_except_quiet by done. unfold retriever_body.
  destruct (negb (str_truthy (getenv w "PINECONE_API_KEY"))); [by left|].
  destruct (negb (str_truthy (getenv w "RELACE_API_KEY"))); [by left|].
  rewrite net_calls_bind. cbn [emit fst snd].
  change (net_calls [Net (VectorSearch query (default 5 kw) (search_namespace namespace))])
    with [Net (VectorSearch query (default 5 kw) (search_namespace namespace))].
  destruct (vector_db_search _ _ _ _) as [[[|r rs]|]|e] eqn:Hs; try (right; left; done).
  rewrite net_calls_bind.
  destruct rerank.
  - right; right. split; [done|]. exists (r :: rs). split; [done|]. split; [done|].
    rewrite net_calls_try_except_quiet, rerank_async_net_calls by done.
    simpl. by repeat case_match.
  - right; left. done.
Qed.

(** With reranking switched off, both keys set and [num_documents] an integer
    or absent from [kwargs], the retriever calls [vector_db.search] once, with
    that limit (5 when absent) and the namespace if it is not empty, sends no
    rerank request and logs no warning or error, and returns the search
    results normalized one to one, in the order of the search. *)
Theorem retriever_without_rerank w query namespace top_k kw found :
  str_truthy (getenv w "PINECONE_API_KEY") = true →
  str_truthy (getenv w "RELACE_API_KEY") = true →
  vector_db_search w query (default 5 kw) (search_namespace namespace)
    = Ok (RespList found) →
  retriever w query namespace false top_k kw
  = ([Net (VectorSearch query (default 5 kw) (search_namespace namespace))],
     Ok (Some (format_doc <$> (normalize namespace <$> found)))).
Proof.
  intros Hp Hr Hs. unfold retriever, retriever_body. rewrite Hp, Hr. simpl.
  rewrite Hs. by destruct found.
Qed.

Lemma retriever_without_rerank_witness :
  str_truthy (getenv (ex_rerank_down ex_found_ab) "PINECONE_API_KEY") = true ∧
  str_truthy (getenv (ex_rerank_down ex_found_ab) "RELACE_API_KEY") = true ∧
  vector_db_search (ex_rerank_down ex_found_ab) "q" (default 5 (Some 7))
    (search_namespace (Some "repoA")) = Ok (RespList ex_found_ab) ∧
  retriever (ex_rerank_down ex_found_ab) "q" (Some "repoA") false None (Some 7)
  = ([Net (VectorSearch "q" (default 5 (Some 7)) (search_namespace (Some "repoA")))],
     Ok (Some (format_doc <$> (normalize (Some "repoA") <$> ex_found_ab)))).
Proof.
  split; [reflexivity|]. split; [reflexivity|]. split; [reflexivity|].
  apply (retriever_without_rerank (ex_rerank_down ex_found_ab) "q" (Some "repoA")
           None (Some 7) ex_found_ab); reflexivity.
Defined.

(** The retriever never raises, and it returns [None] only after logging an
    error: the last line of such a run is an error line. *)
Theorem retriever_never_raises_and_logs_failure w query namespace rerank top_k kw :
  ∃ r,
    (retriever w query namespace rerank top_k kw).2 = Ok r ∧
    match r with
    | None => ∃ m, last (retriever w query namespace rerank top_k kw).1 = Some (Error m)
    | Some _ => True
    end.
Proof.
  eexists. split; [apply retriever_result|].
  unfold retriever_outcome, retriever, retriever_body.
  destruct (negb (str_truthy (getenv w "PINECONE_API_KEY"))); [simpl; eauto|].
  destruct (negb (str_truthy (getenv w "RELACE_API_KEY"))); [simpl; eauto|].
  destruct (vector_db_search _ _ _ _) as [[[|r rs]|]|e]; simpl; eauto.
Qed.

(** Normalization records the namespace on every document ("default" when
    none was asked for), whatever the kind of search result.  For a result
    that is a [Document] it keeps the identifier, keeps a content that is not
    empty, and takes an empty content from the metadata. *)
Theorem normalize_fills_fields namespace result :
  meta_data (normalize namespace result) !! "namespace"
    = Some (MStr (str_or namespace "default")) ∧
  match result with
  | ResDocument d =>
      id (normalize namespace result) = id d ∧
      (if String.eqb (content d) ""
       then content (normalize namespace result)
            = from_option as_content "" (meta_data d !! "content")
       else content (normalize namespace result) = content d)
  | ResDict r =>
      id (normalize namespace result) = Some (default "" (raw_id r)) ∧
      content (normalize namespace result)
        = default "" (raw_metadata r ≫= m_content)
  | ResOther repr =>
      id (normalize namespace result) = Some repr ∧
      content (normalize namespace result) = ""
  end.
Proof.
  destruct result as [d|r|repr]; simpl.
  - split; [by rewrite lookup_insert_eq|]. split; [done|].
    destruct (meta_data d !! "content"), (String.eqb (content d) "") eqn:Hc; try done.
    by apply String.eqb_eq in Hc.
  - split; [by simplify_map_eq|]. split; [done|]. by destruct (raw_metadata r).
  - split; [by simplify_map_eq|]. done.
Qed.

Lemma retriever_reranked_net_calls w query namespace top_k kw found :
  str_truthy (getenv w "PINECONE_API_KEY") = true →
  str_truthy (getenv w "RELACE_API_KEY") = true →
  vector_db_search w query (default 5 kw) (search_namespace namespace)
    = Ok (RespList found) →
  found ≠ [] →
  net_calls (retriever w query namespace true top_k kw).1
  = [Net (VectorSearch query (default 5 kw) (search_namespace namespace));
     Net (RerankPost query (codebase_of (normalize namespace <$> found))
            default_token_limit)].
Proof.
  intros Hp Hr Hs Hne.
  unfold retriever. rewrite net_calls_try_except_quiet by done.
  unfold retriever_body. rewrite Hp, Hr. simpl negb. cbv iota.
  rewrite net_calls_bind. cbn [emit fst snd]. rewrite Hs.
  destruct found as [|r rs]; [done|].
  rewrite net_calls_bind, net_calls_try_except_quiet, rerank_async_net_calls by done.
  simpl. by repeat case_match.
Qed.

Lemma retriever_reranked_result w query namespace top_k kw found results :
  str_truthy (getenv w "PINECONE_API_KEY") = true →
  str_truthy (getenv w "RELACE_API_KEY") = true →
  vector_db_search w query (default 5 kw) (search_namespace namespace)
    = Ok (RespList found) →
  found ≠ [] →
  (rank_code_files w query (codebase_of (normalize namespace <$> found))
     default_token_limit).2 = Ok results →
  (retriever w query namespace true top_k kw).2
  = Ok (Some (format_doc <$>
                truncate_pos (Some (reranker_top_n top_k (default 5 kw)))
                  (sort_desc reranking_score
                     (matched_docs (normalize namespace <$> found) results)))).
Proof.
  intros Hp Hr Hs Hne Hrank.
  assert (normalize namespace <$> found ≠ []) as Hdocs by by destruct found.
  rewrite retriever_result. unfold retriever_outcome. rewrite Hp, Hr, Hs. simpl negb.
  cbv iota zeta. destruct found as [|r rs]; [done|].
  by rewrite (rerank_outcome_success _ _ _ _ _ _ Hdocs Hrank).
Qed.

(** ** The planner's retriever *)

(** The retriever configured for the planner ignores the number of documents
    its caller asks for: it always searches for 15, always reranks, and when
    the rerank call succeeds it returns as many documents as the smaller of 8
    and the number of pairs of the response that name a file that was sent,
    so never more than 8. *)
Theorem planner_retriever_limits w namespace query kw found results :
  str_truthy (getenv w "PINECONE_API_KEY") = true →
  str_truthy (getenv w "RELACE_API_KEY") = true →
  vector_db_search w query 15 (search_namespace namespace) = Ok (RespList found) →
  found ≠ [] →
  (rank_code_files w query (codebase_of (normalize namespace <$> found))
     default_token_limit).2 = Ok results →
  net_calls (configured_retriever w namespace query kw).1
    = [Net (VectorSearch query 15 (search_namespace namespace));
       Net (RerankPost query (codebase_of (normalize namespace <$> found))
              default_token_limit)] ∧
  ∃ out,
    (configured_retriever w namespace query kw).2 = Ok (Some out) ∧
    length out
    = Nat.min 8 (length (List.filter (pair_matches (normalize namespace <$> found)) results)) ∧
    (length out ≤ 8)%nat.
Proof.
  intros Hp Hr Hs Hne Hrank. unfold configured_retriever.
  split; [by apply (retriever_reranked_net_calls w query namespace (Some 8) (Some 15))|].
  eexists. split;
    [by apply (retriever_reranked_result w query namespace (Some 8) (Some 15) found results)|].
  rewrite length_fmap. change (reranker_top_n (Some 8) (default 5 (Some 15))) with 8.
  simpl truncate_pos.
  rewrite length_take, sort_desc_length, length_matched_docs_filter.
  split; [done|]. change (Z.to_nat 8) with 8%nat. lia.
Qed.

Lemma planner_retriever_limits_witness :
  str_truthy (getenv (ex_rerank_up ex_found_abc ex_results_abc) "PINECONE_API_KEY") = true ∧
  str_truthy (getenv (ex_rerank_up ex_found_abc ex_results_abc) "RELACE_API_KEY") = true ∧
  vector_db_search (ex_rerank_up ex_found_abc ex_results_abc) "q" 15
    (search_namespace None) = Ok (RespList ex_found_abc) ∧
  ex_found_abc ≠ [] ∧
  (rank_code_files (ex_rerank_up ex_found_abc ex_results_abc) "q"
     (codebase_of (normalize None <$> ex_found_abc)) default_token_limit).2
    = Ok ex_results_abc ∧
  net_calls (configured_retriever (ex_rerank_up ex_found_abc ex_results_abc) None "q"
               (Some 3)).1
    = [Net (VectorSearch "q" 15 (search_namespace None));
       Net (RerankPost "q" (codebase_of (normalize None <$> ex_found_abc))
              default_token_limit)] ∧
  ∃ out,
    (configured_retriever (ex_rerank_up ex_found_abc ex_results_abc) None "q" (Some 3)).2
      = Ok (Some out) ∧
    length out
    = Nat.min 8 (length (List.filter (pair_matches (normalize None <$> ex_found_abc))
                           ex_results_abc)) ∧
    (length out ≤ 8)%nat.
Proof.
  split; [reflexivity|]. split; [reflexivity|]. split; [reflexivity|].
  split; [discriminate|]. split; [reflexivity|].
  apply (planner_retriever_limits (ex_rerank_up ex_found_abc ex_results_abc)
           None "q" (Some 3) ex_found_abc ex_results_abc);
    [reflexivity|reflexivity|reflexivity|discriminate|reflexivity].
Defined.

(** ** The service retriever *)

Ltac order_solved :=
  simpl; split; [eauto|];
  first [ by left | by right; left | by right; right; left
        | right; right; right; eexists; reflexivity ].

(** [pinecone_retriever] never raises, and its network calls come in a fixed
    order, each at most once: the list of indexes, then the embedding of the
    query, then the vector query.  A later call is never made without the
    earlier ones. *)
Theorem pinecone_retriever_call_order w query num_documents repo_namespace :
  (∃ r, (pinecone_retriever w query num_documents repo_namespace).2 = Ok r) ∧
  (net_calls (pinecone_retriever w query num_documents repo_namespace).1 = [] ∨
   net_calls (pinecone_retriever w query num_documents repo_namespace).1
     = [Net ListIndexes] ∨
   net_calls (pinecone_retriever w query num_documents repo_namespace).1
     = [Net ListIndexes; Net (EmbedPost [query])] ∨
   ∃ embedding,
     net_calls (pinecone_retriever w query num_documents repo_namespace).1
     = [Net ListIndexes; Net (EmbedPost [query]);
        Net (IndexQuery embedding num_documents (search_namespace repo_namespace))]).
Proof.
  unfold pinecone_retriever, pinecone_retriever_body, search_namespace.
  destruct (negb (str_truthy (getenv w "PINECONE_API_KEY"))); [order_solved|].
  destruct (negb (str_truthy (getenv w "RELACE_API_KEY"))); [order_solved|].
  destruct (list_indexes w) as [names|e]; [|order_solved].
  destruct (negb (bool_decide (_ ∈ names))); [order_solved|].
  destruct (embed_service w [query]) as [|status [results data]]; [order_solved|].
  unfold raise_for_status.
  destruct ((200 <=? status) && (status <? 300)); [|order_solved].
  destruct results as [[|[embedding|] rs]|]; try order_solved.
  destruct (index_query w embedding num_documents
              (if str_truthy repo_namespace then repo_namespace else None))
    as [[matches|]|e] eqn:Hq; simpl; rewrite Hq; order_solved.
Qed.



(** The two embedding paths disagree on the fallback key.  For a 200 body
    that carries its vectors under ["data"] and has no ["results"],
    [get_embedding] returns the first vector, while [pinecone_retriever],
    which reads ["results"] only, fails and returns [None] without querying
    the index. *)
Theorem data_only_body_splits_the_paths w query num_documents repo_namespace
    body embedding rest :
  embed_service w [query] = HttpResponse 200 body →
  eb_results body = None →
  eb_data body = Some (Some embedding :: rest) →
  (get_embedding w query).2 = Ok embedding ∧
  (pinecone_retriever w query num_documents repo_namespace).2 = Ok None ∧
  existsb is_vector_query
    (pinecone_retriever w query num_documents repo_namespace).1 = false.
Proof.
  intros Hs Hr Hd. split.
  - unfold get_embedding, generate_embeddings_sync. rewrite Hs.
    destruct body as [results data]. simpl in Hr, Hd. by subst.
  - unfold pinecone_retriever, pinecone_retriever_body.
    destruct (negb (str_truthy (getenv w "PINECONE_API_KEY"))); [done|].
    destruct (negb (str_truthy (getenv w "RELACE_API_KEY"))); [done|].
    destruct (list_indexes w) as [names|e]; [|done].
    destruct (negb (bool_decide (_ ∈ names))); [done|].
    by rewrite Hs, Hr.
Qed.

Lemma data_only_body_splits_the_paths_witness :
  embed_service (ex_embed_world 200 (mkEmbedBody None (Some [Some [1#2]])) (Some [])) ["q"]
    = HttpResponse 200 (mkEmbedBody None (Some [Some [1#2]])) ∧
  eb_results (mkEmbedBody None (Some [Some [1#2]])) = None ∧
  eb_data (mkEmbedBody None (Some [Some [1#2]])) = Some [Some [1#2]] ∧
  (get_embedding (ex_embed_world 200 (mkEmbedBody None (Some [Some [1#2]])) (Some []))
     "q").2 = Ok [1#2] ∧
  (pinecone_retriever (ex_embed_world 200 (mkEmbedBody None (Some [Some [1#2]])) (Some []))
     "q" 5 None).2 = Ok None ∧
  existsb is_vector_query
    (pinecone_retriever (ex_embed_world 200 (mkEmbedBody None (Some [Some [1#2]])) (Some []))
       "q" 5 None).1 = false.
Proof.
  split; [reflexivity|]. split; [reflexivity|]. split; [reflexivity|].
  apply (data_only_body_splits_the_paths
           (ex_embed_world 200 (mkEmbedBody None (Some [Some [1#2]])) (Some []))
           "q" 5 None (mkEmbedBody None (Some [Some [1#2]])) [1#2] []); reflexivity.
Defined.

(** When the index named in the environment (or the default
    ["codebase-index-v2"]) is not among the indexes listed, the service
    retriever returns [None] right after the listing: the query is not
    embedded and the index is not queried. *)
Theorem missing_index_stops_before_embedding w query num_documents repo_namespace names :
  str_truthy (getenv w "PINECONE_API_KEY") = true →
  str_truthy (getenv w "RELACE_API_KEY") = true →
  list_indexes w = Ok names →
  index_name w ∉ names →
  pinecone_retriever w query num_documents repo_namespace
  = ([Net ListIndexes; Error ErrorDuringRetrieval], Ok None).
Proof.
  intros Hp Hr Hl Hin. unfold pinecone_retriever, pinecone_retriever_body.
  fold (index_name w). rewrite Hp, Hr, Hl. simpl negb. cbv iota.
  by rewrite (bool_decide_eq_false_2 _ Hin).
Qed.

Lemma missing_index_stops_before_embedding_witness :
  str_truthy (getenv ex_no_index "PINECONE_API_KEY") = true ∧
  str_truthy (getenv ex_no_index "RELACE_API_KEY") = true ∧
  list_indexes ex_no_index = Ok ["codebase-index-v2"] ∧
  (index_name ex_no_index ∉ ["codebase-index-v2"]) ∧
  pinecone_retriever ex_no_index "q" 5 None
  = ([Net ListIndexes; Error ErrorDuringRetrieval], Ok None).
Proof.
  assert (index_name ex_no_index ∉ ["codebase-index-v2"]) as Hin.
  { intros H. apply list_elem_of_singleton in H. discriminate H. }
  split; [reflexivity|]. split; [reflexivity|]. split; [reflexivity|].
  split; [exact Hin|].
  apply (missing_index_stops_before_embedding ex_no_index "q" 5 None
           ["codebase-index-v2"]); [reflexivity|reflexivity|reflexivity|exact Hin].
Defined.

(** ** The session of the client *)

(** The session [_get_session] hands out is never closed and is the one the
    client keeps; an open session is reused, call after call; and after
    [close] the next [_get_session] makes a new session that carries the
    bearer key and the JSON content type.  [close] twice is [close] once. *)
Theorem session_lifecycle self :
  session_closed (_get_session self).2 = false ∧
  session (_get_session self).1 = Some (_get_session self).2 ∧
  _get_session (_get_session self).1 = _get_session self ∧
  (_get_session (close self)).2 = new_session self ∧
  session_headers (new_session self)
    = [("Authorization", "Bearer " +:+ py_str (api_key self));
       ("Content-Type", "application/json")] ∧
  close (close self) = close self.
Proof.
  destruct self as [key [[headers [|]]|]]; repeat split; done.
Qed.
